(** * WolkAbout connector for Zerynth: the [Wolk] wrapper of [iot.py]

    A shallow embedding of class [Wolk] (and of the models it touches) and
    the properties of its delivery pipeline: the drain loop [publish], the
    optimistic side-effect publishers, the inbound dispatcher and the
    keep-alive timestamp.

    The connector object is a record; its methods are computations in a
    state-and-exception monad over the connector, the state of the device
    application behind the callbacks, and the trace of calls that leave the
    connector (callbacks invoked, messages handed to the MQTT service). *)

From Stdlib Require Import ZArith List String Bool Lia.
Import ListNotations.

Set Implicit Arguments.
Set Warnings "-register-all".

Local Open Scope string_scope.
Local Open Scope Z_scope.
Local Open Scope list_scope.

(* ================================================================= *)
(** ** Data model *)

(** A value carried by a reading, an actuator or a configuration entry:
    [bool, int, float, str or tuple of previous types].  A float is kept as
    its IEEE-754 binary64 bit pattern; the connector never computes with it. *)
Inductive Value : Type :=
| VBool (b : bool)
| VInt (z : Z)
| VFloat (bits : Z)
| VStr (s : string)
| VTuple (vs : list Value).

(** Modelled from the spec: the [Message] class lives in a module whose
    source is not available; the spec describes it as an opaque encoded
    payload plus a destination/topic tag, immutable once created. *)
Record Message : Type := mkMessage {
  topic : string;
  payload : string
}.

(** [wolk/model/sensor_reading.py], class [SensorReading]. *)
Record SensorReading : Type := mkSensorReading {
  sr_reference : string;
  sr_value : Value;
  sr_timestamp : option Z
}.

(** [alarm.Alarm(reference, active, timestamp)], as [add_alarm] builds it. *)
Record Alarm : Type := mkAlarm {
  al_reference : string;
  al_active : bool;
  al_timestamp : option Z
}.

(** "Enum" of actuator states: module-level string constants. *)
Definition ACTUATOR_STATE_READY : string := "READY".
Definition ACTUATOR_STATE_BUSY : string := "BUSY".
Definition ACTUATOR_STATE_ERROR : string := "ERROR".

(** "Enum" of version number. *)
Definition VERSION_MAJOR : Z := 2.
Definition VERSION_MINOR : Z := 0.
Definition VERSION_PATCH : Z := 0.

(** [actuator_status.ActuatorStatus(reference, state, value)], as
    [publish_actuator_status] builds it. *)
Record ActuatorStatus : Type := mkActuatorStatus {
  as_reference : string;
  as_state : string;
  as_value : Value
}.

(** What [parse_actuator_command] returns: the dispatcher reads its
    [reference] and [value] attributes. *)
Record ActuatorCommand : Type := mkActuatorCommand {
  ac_reference : string;
  ac_value : Value
}.

(** A configuration is a key-to-value mapping handed through unchanged;
    duplicates and order are the codec's business. *)
Definition Configuration : Type := list (string * Value).

(** class [Device]: [actuator_references] defaults to [None]. *)
Record Device : Type := mkDevice {
  key : string;
  password : string;
  actuator_references : option (list string)
}.

(** Python truthiness of [device.actuator_references]: [None] and the empty
    list are falsy. *)
Definition truthy_references (refs : option (list string)) : bool :=
  match refs with
  | None => false
  | Some [] => false
  | Some (_ :: _) => true
  end.

(* ================================================================= *)
(** ** Collaborators that the wrapper is built from *)

(** Modelled from the spec: the source of
    [zerynth_message_queue.ZerynthMessageQueue] is not available.  The spec
    gives its contract: a bounded
    FIFO of capacity N; [put] appends if length < capacity and returns
    whether it did; [peek] returns the oldest message without removing it;
    [get] removes and returns the oldest message; both return none when the
    buffer is empty. *)
Module ZerynthMessageQueue.

Record t : Type := mk {
  maxsize : Z;
  items : list Message
}.

Definition create (message_queue_size : Z) : t :=
  {| maxsize := message_queue_size; items := [] |}.

Definition put (message : Message) (q : t) : bool * t :=
  if Z.of_nat (List.length (items q)) <? maxsize q
  then (true, {| maxsize := maxsize q; items := items q ++ [message] |})
  else (false, q).

Definition peek (q : t) : option Message :=
  match items q with
  | [] => None
  | message :: _ => Some message
  end.

Definition get (q : t) : option Message * t :=
  match items q with
  | [] => (None, q)
  | message :: rest => (Some message, {| maxsize := maxsize q; items := rest |})
  end.

End ZerynthMessageQueue.

(** The outbound codec, [WolkAboutProtocolMessageFactory(device.key)]: the
    source of the module is not available, so its five encoders are taken
    as given pure functions (spec section 6). *)
Record MessageFactory : Type := mkMessageFactory {
  make_from_sensor_reading : SensorReading -> Message;
  make_from_alarm : Alarm -> Message;
  make_from_actuator_status : ActuatorStatus -> Message;
  make_from_configuration : Configuration -> Message;
  make_from_keep_alive_message : Message
}.

(** The inbound codec, [WolkAboutProtocolMessageDeserializer(device)]: three
    predicates, three parsers and the topics to subscribe to, taken as
    given.  Nothing is assumed here about the predicates excluding one
    another. *)
Record MessageDeserializer : Type := mkMessageDeserializer {
  get_inbound_topics : list string;
  is_actuation_command : Message -> bool;
  is_configuration_command : Message -> bool;
  is_keep_alive_response : Message -> bool;
  parse_actuator_command : Message -> ActuatorCommand;
  parse_configuration_command : Message -> Configuration;
  parse_keep_alive_response : Message -> Z
}.

(** The expectation the spec places on the inbound codec: its predicates
    are mutually exclusive by topic/type. *)
Definition exclusive_predicates (d : MessageDeserializer) : Prop :=
  forall m,
    (is_actuation_command d m = true -> is_configuration_command d m = false
                                        /\ is_keep_alive_response d m = false)
    /\ (is_configuration_command d m = true -> is_keep_alive_response d m = false).

(** [MQTTConnectivityService(device, topics, host, port)]: what the wrapper
    configures it with, and whether it is connected. *)
Record ConnectivityService : Type := mkConnectivityService {
  cs_device : Device;
  cs_topics : list string;
  cs_host : string;
  cs_port : Z;
  cs_listener_set : bool;
  cs_connected : bool
}.

(** [timers.timer()] after [interval(period, fn)]: the period, and whether
    it has been started and not stopped. *)
Record Timer : Type := mkTimer {
  period_ms : Z;
  running : bool
}.

(** Exceptions that can leave a method of [Wolk]. *)
Inductive Exn : Type :=
| InterfaceNotProvided                 (* new_exception(InterfaceNotProvided, Exception) *)
| TypeError                            (* calling None *)
| AttributeError                       (* None.stop() *)
| ConnectFailed                        (* raised by connectivity_service.connect() *)
| CallbackRaised.                      (* raised inside a device-supplied callback *)

(** Calls that leave the connector, in the order they are made. *)
Inductive Event : Type :=
| EvConnect (ok : bool)
| EvDisconnect
| EvPublish (message : Message) (ok : bool)
| EvActuationHandler (reference : string) (value : Value)
| EvActuatorStatusProvider (reference : string)
| EvConfigurationHandler (configuration : Configuration)
| EvConfigurationProvider
| EvPrint (text : string).

(** The network behind the connectivity service.  Whether a call succeeds
    may depend on everything that has happened so far, so any sequence of
    outcomes is some network. *)
Record Network : Type := mkNetwork {
  net_connect : list Event -> bool;
  net_publish : list Event -> Message -> bool
}.

Inductive Result (A : Type) : Type :=
| Ok (a : A)
| Err (e : Exn).
Arguments Err {A} e.

(* ================================================================= *)
(** ** The connector object and the monad its methods run in *)

Section Connector.

(** The state of the device application that the callbacks read and
    change.  A callback is a function of that state which either returns
    normally, with a result and a new state, or raises ([None]); callbacks
    do not call back into the connector. *)
Context {App : Type}.

Definition ActuationHandler : Type := string -> Value -> App -> option App.
Definition ActuatorStatusProvider : Type :=
  string -> App -> option ((string * Value) * App).
Definition ConfigurationHandler : Type := Configuration -> App -> option App.
Definition ConfigurationProvider : Type := App -> option (Configuration * App).

(** class [Wolk]: the attributes [__init__] sets. *)
Record Wolk : Type := mkWolk {
  device : Device;
  message_factory : MessageFactory;
  message_deserializer : MessageDeserializer;
  message_queue : ZerynthMessageQueue.t;
  connectivity_service : ConnectivityService;
  actuation_handler : option ActuationHandler;
  actuator_status_provider : option ActuatorStatusProvider;
  configuration_handler : option ConfigurationHandler;
  configuration_provider : option ConfigurationProvider;
  keep_alive_enabled : bool;
  keep_alive_service : option Timer;
  last_platform_timestamp : option Z
}.

Definition set_message_queue (q : ZerynthMessageQueue.t) (w : Wolk) : Wolk :=
  mkWolk (device w) (message_factory w) (message_deserializer w) q
         (connectivity_service w) (actuation_handler w)
         (actuator_status_provider w) (configuration_handler w)
         (configuration_provider w) (keep_alive_enabled w)
         (keep_alive_service w) (last_platform_timestamp w).

Definition set_connected (b : bool) (w : Wolk) : Wolk :=
  let cs := connectivity_service w in
  mkWolk (device w) (message_factory w) (message_deserializer w)
         (message_queue w)
         (mkConnectivityService (cs_device cs) (cs_topics cs) (cs_host cs)
                                (cs_port cs) (cs_listener_set cs) b)
         (actuation_handler w)
         (actuator_status_provider w) (configuration_handler w)
         (configuration_provider w) (keep_alive_enabled w)
         (keep_alive_service w) (last_platform_timestamp w).

Definition set_keep_alive_service (t : option Timer) (w : Wolk) : Wolk :=
  mkWolk (device w) (message_factory w) (message_deserializer w)
         (message_queue w) (connectivity_service w) (actuation_handler w)
         (actuator_status_provider w) (configuration_handler w)
         (configuration_provider w) (keep_alive_enabled w)
         t (last_platform_timestamp w).

Definition set_last_platform_timestamp (ts : option Z) (w : Wolk) : Wolk :=
  mkWolk (device w) (message_factory w) (message_deserializer w)
         (message_queue w) (connectivity_service w) (actuation_handler w)
         (actuator_status_provider w) (configuration_handler w)
         (configuration_provider w) (keep_alive_enabled w)
         (keep_alive_service w) ts.

(** What a method runs against: the connector, the device application and
    the calls made so far (oldest first). *)
Record State : Type := mkState {
  self : Wolk;
  app : App;
  trace : list Event
}.

(** A method either returns a value or raises; either way it leaves a
    state behind. *)
Inductive Outcome (A : Type) : Type :=
| Returned (a : A) (s : State)
| Raised (e : Exn) (s : State).
Arguments Raised {A} e s.

Definition M (A : Type) : Type := State -> Outcome A.

Definition ret {A : Type} (a : A) : M A := fun s => Returned a s.

Definition bind {A B : Type} (c : M A) (k : A -> M B) : M B :=
  fun s =>
    match c s with
    | Returned a s' => k a s'
    | Raised e s' => Raised e s'
    end.

Definition raise {A : Type} (e : Exn) : M A := fun s => Raised e s.

Definition final_state {A : Type} (o : Outcome A) : State :=
  match o with
  | Returned _ s => s
  | Raised _ s => s
  end.

Definition attr {A : Type} (field : Wolk -> A) : M A :=
  fun s => Returned (field (self s)) s.

Definition update_self (f : Wolk -> Wolk) : M unit :=
  fun s => Returned tt (mkState (f (self s)) (app s) (trace s)).

Definition log (e : Event) : M unit :=
  fun s => Returned tt (mkState (self s) (app s) (trace s ++ [e])).

(** Run a callback on the device application: the call is recorded, then
    either the result comes back with the new application state or the
    callback's exception propagates (nothing here catches it). *)
Definition call {A : Type} (e : Event) (f : App -> option (A * App)) : M A :=
  fun s =>
    let s1 := mkState (self s) (app s) (trace s ++ [e]) in
    match f (app s) with
    | Some (a, app') => Returned a (mkState (self s) app' (trace s1))
    | None => Raised CallbackRaised s1
    end.

Definition from_unit (f : App -> option App) : App -> option (unit * App) :=
  fun a => match f a with
           | Some a' => Some (tt, a')
           | None => None
           end.

End Connector.

Arguments Wolk : clear implicits.
Arguments State : clear implicits.
Arguments M : clear implicits.
Arguments Outcome : clear implicits.
Arguments Returned {App A} a s.
Arguments Raised {App A} e s.
Arguments raise {App A} e s.

Declare Scope wolk_scope.
Delimit Scope wolk_scope with wolk.
Notation "x <- c ;; k" := (bind c (fun x => k))
  (at level 61, c at next level, right associativity) : wolk_scope.
Notation "c ;;; k" := (bind c (fun _ => k))
  (at level 61, right associativity) : wolk_scope.
Local Open Scope wolk_scope.

(* ================================================================= *)
(** ** The methods of [Wolk] *)

Definition DEFAULT_HOST : string := "api-demo.wolkabout.com".
Definition DEFAULT_PORT : Z := 1883.
Definition DEFAULT_MESSAGE_QUEUE_SIZE : Z := 100.
Definition KEEP_ALIVE_INTERVAL : Z := 60000.

Definition is_none {A : Type} (o : option A) : bool :=
  match o with
  | None => true
  | Some _ => false
  end.

Section Methods.

Context {App : Type}.

(** The two codec modules imported at the top of [iot.py] ([wapmf],
    [wapmd]) and the network the MQTT service talks to. *)
Variable WolkAboutProtocolMessageFactory : string -> MessageFactory.
Variable WolkAboutProtocolMessageDeserializer : Device -> MessageDeserializer.
Variable net : Network.

(** [Wolk.__init__]: every attribute is set, then the interface check may
    raise, in which case no connector comes into being. *)
Definition __init__
    (device : Device) (host : string) (port : Z)
    (actuation_handler : option (@ActuationHandler App))
    (actuator_status_provider : option (@ActuatorStatusProvider App))
    (configuration_handler : option (@ConfigurationHandler App))
    (configuration_provider : option (@ConfigurationProvider App))
    (message_queue_size : Z) (keep_alive_enabled : bool)
  : Result (Wolk App) :=
  let message_factory := WolkAboutProtocolMessageFactory (key device) in
  let message_deserializer := WolkAboutProtocolMessageDeserializer device in
  let message_queue := ZerynthMessageQueue.create message_queue_size in
  let connectivity_service :=
    mkConnectivityService device (get_inbound_topics message_deserializer)
                          host port true false in
  let self :=
    mkWolk device message_factory message_deserializer message_queue
           connectivity_service actuation_handler actuator_status_provider
           configuration_handler configuration_provider keep_alive_enabled
           None None in
  if truthy_references (actuator_references device)
     && (is_none actuation_handler || is_none actuator_status_provider)
  then Err InterfaceNotProvided
  else Ok self.

(** [self.connectivity_service.publish(message)]: the network decides, the
    attempt and its outcome are recorded. *)
Definition connectivity_publish (message : Message) : M App bool :=
  fun s =>
    let ok := net_publish net (trace s) message in
    Returned ok (mkState (self s) (app s) (trace s ++ [EvPublish message ok])).

Definition connectivity_connect : M App unit :=
  fun s =>
    let ok := net_connect net (trace s) in
    let s1 := mkState (set_connected ok (self s)) (app s)
                      (trace s ++ [EvConnect ok]) in
    if ok then Returned tt s1 else Raised ConnectFailed s1.

Definition connectivity_disconnect : M App unit :=
  log EvDisconnect ;;; update_self (set_connected false).

(** [self.message_queue.put(message)], [.peek()] and [.get()]. *)
Definition queue_put (message : Message) : M App bool :=
  fun s =>
    let (ok, q) := ZerynthMessageQueue.put message (message_queue (self s)) in
    Returned ok (mkState (set_message_queue q (self s)) (app s) (trace s)).

Definition queue_peek : M App (option Message) :=
  attr (fun w => ZerynthMessageQueue.peek (message_queue w)).

Definition queue_get : M App (option Message) :=
  fun s =>
    let (m, q) := ZerynthMessageQueue.get (message_queue (self s)) in
    Returned m (mkState (set_message_queue q (self s)) (app s) (trace s)).

Definition _send_keep_alive : M App unit :=
  log (EvPrint "called ping pub") ;;;
  factory <- attr message_factory ;;
  let message := make_from_keep_alive_message factory in
  connectivity_publish message ;;;
  ret tt.

Definition connect : M App unit :=
  connectivity_connect ;;;
  enabled <- attr keep_alive_enabled ;;
  if (enabled : bool)
  then update_self (set_keep_alive_service
                      (Some (mkTimer KEEP_ALIVE_INTERVAL true)))
  else ret tt.

Definition disconnect : M App unit :=
  connectivity_disconnect ;;;
  enabled <- attr keep_alive_enabled ;;
  if (enabled : bool)
  then
    service <- attr keep_alive_service ;;
    match service with
    | None => raise AttributeError
    | Some t =>
        update_self (set_keep_alive_service (Some (mkTimer (period_ms t) false)))
    end
  else ret tt.

Definition add_sensor_reading
    (reference : string) (value : Value) (timestamp : option Z) : M App unit :=
  let reading := mkSensorReading reference value timestamp in
  factory <- attr message_factory ;;
  let message := make_from_sensor_reading factory reading in
  queue_put message ;;;
  ret tt.

Definition add_alarm
    (reference : string) (active : bool) (timestamp : option Z) : M App unit :=
  let alarm_event := mkAlarm reference active timestamp in
  factory <- attr message_factory ;;
  let message := make_from_alarm factory alarm_event in
  queue_put message ;;;
  ret tt.

(** [Wolk.publish]: the [while True] loop, one unit of fuel per iteration.
    [None] means the fuel ran out before the loop reached its [break].  The
    only exit is the [break] on an empty queue: after a publish that did
    not return [True] the loop goes round again. *)
Fixpoint publish (fuel : nat) (s : State App) : option (Outcome App unit) :=
  match fuel with
  | O => None
  | S fuel' =>
      match queue_peek s with
      | Raised e s1 => Some (Raised e s1)
      | Returned None s1 => Some (Returned tt s1)
      | Returned (Some message) s1 =>
          match connectivity_publish message s1 with
          | Raised e s2 => Some (Raised e s2)
          | Returned true s2 =>
              match queue_get s2 with
              | Raised e s3 => Some (Raised e s3)
              | Returned _ s3 => publish fuel' s3
              end
          | Returned false s2 => publish fuel' s2
          end
      end
  end.

Definition publish_actuator_status (reference : string) : M App unit :=
  provider <- attr actuator_status_provider ;;
  match provider with
  | None => ret tt
  | Some actuator_status_provider =>
      sv <- call (EvActuatorStatusProvider reference)
                 (actuator_status_provider reference) ;;
      let (state, value) := (sv : string * Value) in
      let status := mkActuatorStatus reference state value in
      factory <- attr message_factory ;;
      let message := make_from_actuator_status factory status in
      ok <- connectivity_publish message ;;
      if negb ok then queue_put message ;;; ret tt else ret tt
  end.

Definition publish_configuration : M App unit :=
  handler <- attr configuration_handler ;;
  match handler with
  | None => ret tt
  | Some _ =>
      provider <- attr configuration_provider ;;
      match provider with
      | None => raise TypeError
      | Some configuration_provider =>
          configuration <- call EvConfigurationProvider configuration_provider ;;
          factory <- attr message_factory ;;
          let message := make_from_configuration factory configuration in
          ok <- connectivity_publish message ;;
          if negb ok then queue_put message ;;; ret tt else ret tt
      end
  end.

Definition request_timestamp : M App (option Z) :=
  attr last_platform_timestamp.

(** [Wolk._on_inbound_message]: three [if]s, the first two ending in
    [return]. *)
Definition _on_inbound_message (message : Message) : M App unit :=
  d <- attr message_deserializer ;;
  if is_actuation_command d message then
    handler <- attr actuation_handler ;;
    provider <- attr actuator_status_provider ;;
    match handler, provider with
    | Some actuation_handler, Some _ =>
        let actuation := parse_actuator_command d message in
        call (EvActuationHandler (ac_reference actuation) (ac_value actuation))
             (from_unit (actuation_handler (ac_reference actuation)
                                           (ac_value actuation))) ;;;
        publish_actuator_status (ac_reference actuation)
    | _, _ => ret tt
    end
  else if is_configuration_command d message then
    provider <- attr configuration_provider ;;
    handler <- attr configuration_handler ;;
    match provider, handler with
    | Some _, Some configuration_handler =>
        let configuration := parse_configuration_command d message in
        call (EvConfigurationHandler configuration)
             (from_unit (configuration_handler configuration)) ;;;
        publish_configuration
    | _, _ => ret tt
    end
  else if is_keep_alive_response d message then
    update_self (set_last_platform_timestamp
                   (Some (parse_keep_alive_response d message)))
  else ret tt.

End Methods.

(* ================================================================= *)
(** ** Executions: what can happen to a connector *)

(** The public operations, the inbound delivery made by the MQTT service
    through the registered listener, and the tick of the keep-alive timer. *)
Inductive Call : Type :=
| CallConnect
| CallDisconnect
| CallAddSensorReading (reference : string) (value : Value) (timestamp : option Z)
| CallAddAlarm (reference : string) (active : bool) (timestamp : option Z)
| CallPublish
| CallPublishActuatorStatus (reference : string)
| CallPublishConfiguration
| CallRequestTimestamp
| Inbound (message : Message)
| KeepAliveTick.

Section Executions.

Context {App : Type}.
Variable net : Network.

(** One call.  An exception leaves the call but not the program: the state
    it left behind is where the next call starts.  [None]: a [publish] that
    has not returned within [fuel] iterations. *)
Definition exec (fuel : nat) (c : Call) (s : State App) : option (State App) :=
  match c with
  | CallConnect => Some (final_state (connect net s))
  | CallDisconnect => Some (final_state (disconnect s))
  | CallAddSensorReading reference value timestamp =>
      Some (final_state (add_sensor_reading reference value timestamp s))
  | CallAddAlarm reference active timestamp =>
      Some (final_state (add_alarm reference active timestamp s))
  | CallPublish => option_map (@final_state App unit) (publish net fuel s)
  | CallPublishActuatorStatus reference =>
      Some (final_state (publish_actuator_status net reference s))
  | CallPublishConfiguration => Some (final_state (publish_configuration net s))
  | CallRequestTimestamp => Some (final_state (request_timestamp s))
  | Inbound message => Some (final_state (_on_inbound_message net message s))
  | KeepAliveTick => Some (final_state (_send_keep_alive net s))
  end.

Fixpoint run (fuel : nat) (cs : list Call) (s : State App) : option (State App) :=
  match cs with
  | [] => Some s
  | c :: cs' =>
      match exec fuel c s with
      | Some s' => run fuel cs' s'
      | None => None
      end
  end.

(** The calls that reach the third [if] of the dispatcher with a message
    its predicate accepts. *)
Definition reaches_keep_alive_branch (c : Call) (s : State App) : bool :=
  match c with
  | Inbound message =>
      let d := message_deserializer (self s) in
      negb (is_actuation_command d message)
      && negb (is_configuration_command d message)
      && is_keep_alive_response d message
  | _ => false
  end.

Fixpoint no_keep_alive_branch (fuel : nat) (cs : list Call) (s : State App) : bool :=
  match cs with
  | [] => true
  | c :: cs' =>
      negb (reaches_keep_alive_branch c s)
      && match exec fuel c s with
         | Some s' => no_keep_alive_branch fuel cs' s'
         | None => true
         end
  end.

End Executions.

(* ================================================================= *)
(** ** The dispatcher as the spec words it *)

Inductive Classification : Type :=
| ActuationCommand
| ConfigurationCommand
| KeepAliveResponse
| Unknown.

(** Section 4.3: four classifications, the predicates tried in the listed
    order, the first match wins. *)
Definition spec_classify (d : MessageDeserializer) (m : Message) : Classification :=
  if is_actuation_command d m then ActuationCommand
  else if is_configuration_command d m then ConfigurationCommand
  else if is_keep_alive_response d m then KeepAliveResponse
  else Unknown.

Definition is_actuation_event (e : Event) : bool :=
  match e with
  | EvActuationHandler _ _ | EvActuatorStatusProvider _ => true
  | _ => false
  end.

Definition is_configuration_event (e : Event) : bool :=
  match e with
  | EvConfigurationHandler _ | EvConfigurationProvider => true
  | _ => false
  end.

(** What one classification may leave behind, going from [s] to [s'].
    - actuation: no configuration callback runs, the timestamp stays;
    - configuration: no actuation callback runs, the timestamp stays;
    - keep-alive: nothing leaves the connector, the buffer stays, the
      timestamp is the parsed one;
    - unknown: nothing changes at all. *)
Definition footprint {App : Type} (c : Classification) (m : Message)
    (s s' : State App) : Prop :=
  match c with
  | ActuationCommand =>
      last_platform_timestamp (self s') = last_platform_timestamp (self s)
      /\ exists l : list Event, trace s' = trace s ++ l
                   /\ forallb (fun e => negb (is_configuration_event e)) l = true
  | ConfigurationCommand =>
      last_platform_timestamp (self s') = last_platform_timestamp (self s)
      /\ exists l : list Event, trace s' = trace s ++ l
                   /\ forallb (fun e => negb (is_actuation_event e)) l = true
  | KeepAliveResponse =>
      trace s' = trace s /\ app s' = app s
      /\ message_queue (self s') = message_queue (self s)
      /\ last_platform_timestamp (self s')
         = Some (parse_keep_alive_response (message_deserializer (self s)) m)
  | Unknown => s' = s
  end.

(** What the dispatcher does when classification [c] is the one that
    fires, as the outcome [o] of the call from state [s].
    - actuation: with handler and status provider registered, the handler
      is called first thing with the parsed reference and value and the
      status of that reference is published after it; with either of the
      two missing the call returns and nothing has changed;
    - configuration: the same with the configuration handler, the parsed
      configuration and [publish_configuration];
    - keep-alive: the call returns and the timestamp is the parsed one;
    - unknown: the call returns and nothing has changed. *)
Definition fires {App : Type} (net : Network) (c : Classification)
    (m : Message) (s : State App) (o : Outcome App unit) : Prop :=
  let d := message_deserializer (self s) in
  match c with
  | ActuationCommand =>
      let reference := ac_reference (parse_actuator_command d m) in
      let value := ac_value (parse_actuator_command d m) in
      match actuation_handler (self s), actuator_status_provider (self s) with
      | Some handler, Some _ =>
          o = bind (call (EvActuationHandler reference value)
                         (from_unit (handler reference value)))
                   (fun _ => publish_actuator_status net reference) s
          /\ exists l, trace (final_state o)
                       = trace s ++ EvActuationHandler reference value :: l
      | _, _ => o = Returned tt s
      end
  | ConfigurationCommand =>
      let configuration := parse_configuration_command d m in
      match configuration_handler (self s), configuration_provider (self s) with
      | Some handler, Some _ =>
          o = bind (call (EvConfigurationHandler configuration)
                         (from_unit (handler configuration)))
                   (fun _ => publish_configuration net) s
          /\ exists l, trace (final_state o)
                       = trace s ++ EvConfigurationHandler configuration :: l
      | _, _ => o = Returned tt s
      end
  | KeepAliveResponse =>
      exists s', o = Returned tt s'
                 /\ last_platform_timestamp (self s')
                    = Some (parse_keep_alive_response d m)
  | Unknown => o = Returned tt s
  end.

(* ================================================================= *)
(** ** Vocabulary for the drain loop *)

Section DrainStates.

Context {App : Type}.

(** What waits in the outbound buffer, oldest first, and its capacity. *)
Definition items_of (s : State App) : list Message :=
  ZerynthMessageQueue.items (message_queue (self s)).

Definition maxsize_of (s : State App) : Z :=
  ZerynthMessageQueue.maxsize (message_queue (self s)).

(** The state after the head of the buffer went out and was removed. *)
Definition after_success (m : Message) (rest : list Message) (s : State App)
  : State App :=
  mkState (set_message_queue (ZerynthMessageQueue.mk (maxsize_of s) rest) (self s))
          (app s) (trace s ++ [EvPublish m true]).

(** The state after the head of the buffer was refused. *)
Definition after_failure (m : Message) (s : State App) : State App :=
  mkState (self s) (app s) (trace s ++ [EvPublish m false]).

(** The state after a drain in which everything went out. *)
Definition after_drain (s : State App) : State App :=
  mkState (set_message_queue (ZerynthMessageQueue.mk (maxsize_of s) []) (self s))
          (app s)
          (trace s ++ map (fun m => EvPublish m true) (items_of s)).

End DrainStates.

(* ================================================================= *)
(** ** A concrete device, codec and networks to run the model on *)

Module Demo.

(** The device application: the value last written to its one actuator. *)
Definition App : Type := Value.

Definition factory (device_key : string) : MessageFactory :=
  {| make_from_sensor_reading r :=
       mkMessage ("readings/" ++ device_key ++ "/" ++ sr_reference r)%string "R";
     make_from_alarm a :=
       mkMessage ("events/" ++ device_key ++ "/" ++ al_reference a)%string
                 (if al_active a then "ON" else "OFF");
     make_from_actuator_status st :=
       mkMessage ("actuators/status/" ++ device_key ++ "/" ++ as_reference st)%string
                 (as_state st);
     make_from_configuration _ :=
       mkMessage ("configurations/current/" ++ device_key)%string "C";
     make_from_keep_alive_message := mkMessage ("ping/" ++ device_key)%string "" |}.

Fixpoint decimal (acc : Z) (digits : string) : Z :=
  match digits with
  | EmptyString => acc
  | String c rest => decimal (10 * acc + (Z.of_nat (Ascii.nat_of_ascii c) - 48)) rest
  end.

(** Inbound messages are told apart by topic, so no two predicates accept
    the same message. *)
Definition deserializer (_ : Device) : MessageDeserializer :=
  {| get_inbound_topics := ["actuation"; "configuration"; "pong"];
     is_actuation_command m := String.eqb (topic m) "actuation";
     is_configuration_command m := String.eqb (topic m) "configuration";
     is_keep_alive_response m := String.eqb (topic m) "pong";
     parse_actuator_command m := mkActuatorCommand (payload m) (VBool true);
     parse_configuration_command m := [(payload m, VBool true)];
     parse_keep_alive_response m := decimal 0 (payload m) |}.

Definition on_actuation : @ActuationHandler App :=
  fun _ value _ => Some value.
Definition actuator_status : @ActuatorStatusProvider App :=
  fun _ a => Some ((ACTUATOR_STATE_READY, a), a).
Definition on_configuration : @ConfigurationHandler App :=
  fun _ a => Some a.
Definition configuration : @ConfigurationProvider App :=
  fun a => Some ([("interval", a)], a).

Definition is_publish_event (e : Event) : bool :=
  match e with
  | EvPublish _ _ => true
  | _ => false
  end.

(** A broker that accepts everything, one that is unreachable, and one
    that refuses the first message it is handed and accepts from then on. *)
Definition net_up : Network :=
  {| net_connect _ := true; net_publish _ _ := true |}.
Definition net_down : Network :=
  {| net_connect _ := false; net_publish _ _ := false |}.
Definition net_first_publish_fails : Network :=
  {| net_connect _ := true;
     net_publish h _ := existsb is_publish_event h |}.

Definition thermostat : Device := mkDevice "dev" "secret" (Some ["SW"]).
Definition sensor_only : Device := mkDevice "dev" "secret" None.

Definition start (w : Wolk App) : State App := mkState w (VBool false) [].

(** [Wolk(device, actuation_handler=..., actuator_status_provider=...,
    configuration_handler=..., configuration_provider=...)]. *)
Definition full_wolk (queue_size : Z) (keep_alive : bool) : Result (Wolk App) :=
  __init__ factory deserializer thermostat DEFAULT_HOST DEFAULT_PORT
           (Some on_actuation) (Some actuator_status)
           (Some on_configuration) (Some configuration)
           queue_size keep_alive.

(** [Wolk(device)] for a device without actuators. *)
Definition bare_wolk (queue_size : Z) (keep_alive : bool) : Result (Wolk App) :=
  __init__ factory deserializer sensor_only DEFAULT_HOST DEFAULT_PORT
           None None None None queue_size keep_alive.

(** [Wolk(device, configuration_handler=...)]: a configuration handler
    without a configuration provider, which [__init__] accepts. *)
Definition handler_only_wolk (queue_size : Z) (keep_alive : bool)
  : Result (Wolk App) :=
  __init__ factory deserializer sensor_only DEFAULT_HOST DEFAULT_PORT
           None None (Some on_configuration) None queue_size keep_alive.

Definition the (r : Result (Wolk App)) : Wolk App :=
  match r with
  | Ok w => w
  | Err _ => mkWolk sensor_only (factory "") (deserializer sensor_only)
                    (ZerynthMessageQueue.create 0)
                    (mkConnectivityService sensor_only [] "" 0 false false)
                    None None None None false None None
  end.

Definition m1 : Message := mkMessage "readings/dev/T1" "R".
Definition m2 : Message := mkMessage "events/dev/A1" "ON".
Definition pong : Message := mkMessage "pong" "1530000000000".
Definition switch_on : Message := mkMessage "actuation" "SW".

(** A connector with [items] waiting in its buffer. *)
Definition holding (items : list Message) : State App :=
  let w := the (bare_wolk DEFAULT_MESSAGE_QUEUE_SIZE true) in
  start (set_message_queue
           (ZerynthMessageQueue.mk DEFAULT_MESSAGE_QUEUE_SIZE items) w).


(** Callbacks that raise, and a connector built on them. *)
Definition failing_actuation : @ActuationHandler App :=
  fun _ _ _ => None.
Definition failing_configuration_handler : @ConfigurationHandler App :=
  fun _ _ => None.

Definition faulty_wolk (queue_size : Z) (keep_alive : bool) : Result (Wolk App) :=
  __init__ factory deserializer thermostat DEFAULT_HOST DEFAULT_PORT
           (Some failing_actuation) (Some actuator_status)
           (Some failing_configuration_handler) (Some configuration)
           queue_size keep_alive.

Definition reconfigure : Message := mkMessage "configuration" "interval".

(** A broker that refuses until it has refused [n] messages. *)
Definition net_refusing (n : nat) : Network :=
  {| net_connect _ := true;
     net_publish h _ :=
       (n <=? List.length
                (filter (fun e => match e with
                                  | EvPublish _ false => true
                                  | _ => false
                                  end) h))%nat |}.

Definition failing_status : @ActuatorStatusProvider App :=
  fun _ _ => None.

Definition status_faulty_wolk (queue_size : Z) (keep_alive : bool)
  : Result (Wolk App) :=
  __init__ factory deserializer thermostat DEFAULT_HOST DEFAULT_PORT
           (Some on_actuation) (Some failing_status) None None
           queue_size keep_alive.

(** A codec whose three predicates accept every message, and a connector
    built on it: only the order of the checks decides. *)
Definition greedy_deserializer (_ : Device) : MessageDeserializer :=
  {| get_inbound_topics := ["#"];
     is_actuation_command _ := true;
     is_configuration_command _ := true;
     is_keep_alive_response _ := true;
     parse_actuator_command m := mkActuatorCommand (payload m) (VBool true);
     parse_configuration_command m := [(payload m, VBool true)];
     parse_keep_alive_response m := decimal 0 (payload m) |}.

Definition greedy_wolk (queue_size : Z) (keep_alive : bool) : Result (Wolk App) :=
  __init__ factory greedy_deserializer thermostat DEFAULT_HOST DEFAULT_PORT
           (Some on_actuation) (Some actuator_status)
           (Some on_configuration) (Some configuration)
           queue_size keep_alive.

End Demo.

(* ================================================================= *)
(** ** Vocabulary for traces and runs *)

(** The messages the transport accepted, the messages it was offered, and
    how many offers it refused, in a stretch of trace. *)
Definition delivered (l : list Event) : list Message :=
  flat_map (fun e => match e with
                     | EvPublish m true => [m]
                     | _ => []
                     end) l.

Definition attempts (l : list Event) : list Message :=
  flat_map (fun e => match e with
                     | EvPublish m _ => [m]
                     | _ => []
                     end) l.

Definition refusals (l : list Event) : nat :=
  List.length (filter (fun e => match e with
                                | EvPublish _ false => true
                                | _ => false
                                end) l).

Definition callback_events (l : list Event) : list Event :=
  filter (fun e => is_actuation_event e || is_configuration_event e) l.

(** The calls that only store a datum, and what each of them stores. *)
Definition is_add (c : Call) : bool :=
  match c with
  | CallAddSensorReading _ _ _ | CallAddAlarm _ _ _ => true
  | _ => false
  end.

Definition stored_by (factory : MessageFactory) (c : Call) : list Message :=
  match c with
  | CallAddSensorReading reference value timestamp =>
      [make_from_sensor_reading factory
         (mkSensorReading reference value timestamp)]
  | CallAddAlarm reference active timestamp =>
      [make_from_alarm factory (mkAlarm reference active timestamp)]
  | _ => []
  end.

(** What [__init__] fixes once and for all: the device, the codecs, the
    callbacks, the keep-alive flag and the capacity of the buffer. *)
Definition same_configuration {App : Type} (w w' : Wolk App) : Prop :=
  device w' = device w
  /\ message_factory w' = message_factory w
  /\ message_deserializer w' = message_deserializer w
  /\ actuation_handler w' = actuation_handler w
  /\ actuator_status_provider w' = actuator_status_provider w
  /\ configuration_handler w' = configuration_handler w
  /\ configuration_provider w' = configuration_provider w
  /\ keep_alive_enabled w' = keep_alive_enabled w
  /\ ZerynthMessageQueue.maxsize (message_queue w')
     = ZerynthMessageQueue.maxsize (message_queue w).

(* ================================================================= *)
(** ** Proof automation for monadic computations *)

Ltac unfold_methods :=
  unfold _on_inbound_message, publish_actuator_status, publish_configuration,
         request_timestamp, connect, disconnect, add_sensor_reading, add_alarm,
         _send_keep_alive, connectivity_connect, connectivity_disconnect,
         connectivity_publish, queue_put, ZerynthMessageQueue.put,
         bind, ret, raise, attr, call, from_unit, update_self, log in *.

(** Split on whatever the computation in the goal branches on next. *)
Ltac branch :=
  match goal with
  | |- context [match ?x with _ => _ end] =>
      lazymatch x with
      | context [match _ with _ => _ end] => fail
      | _ => destruct x eqn:?
      end
  end.

Ltac crunch := unfold_methods; simpl in *; repeat (branch; simpl in * ).

Ltac extends_trace :=
  eexists; split;
  [ rewrite <- ?app_assoc; simpl; try reflexivity;
    try (rewrite app_nil_r; reflexivity)
  | reflexivity ].

(* ================================================================= *)
(** ** Running the model on the scenarios of the spec *)

(** [add_sensor_reading("T1", 23.5, 1000)] then [publish()] against a
    broker that accepts every call: one message goes out, the buffer is
    empty afterwards.  (23.5 is 0x4037800000000000.) *)
Example scenario_reading_then_publish :
  let s0 := Demo.start (Demo.the (Demo.bare_wolk 100 true)) in
  let s1 := final_state (add_sensor_reading "T1" (VFloat 4627307879634829312)
                                            (Some 1000) s0) in
  exists s2, publish Demo.net_up 2 s1 = Some (Returned tt s2)
             /\ trace s2 = [EvPublish Demo.m1 true]
             /\ ZerynthMessageQueue.items (message_queue (self s2)) = [].
Proof. eexists. repeat split. Qed.

(** Capacity 2, three alarms: the third [put] is refused and the first two
    stay, in order. *)
Example scenario_three_alarms :
  let s0 := Demo.start (Demo.the (Demo.bare_wolk 2 true)) in
  let s1 := final_state (add_alarm "A1" true None s0) in
  let s2 := final_state (add_alarm "A2" true None s1) in
  let s3 := final_state (add_alarm "A3" true None s2) in
  map topic (ZerynthMessageQueue.items (message_queue (self s3)))
  = ["events/dev/A1"; "events/dev/A2"].
Proof. reflexivity. Qed.

(* ================================================================= *)
(** ** The drain loop *)

Section Drain.

Context {App : Type}.
Variable net : Network.

Lemma publish_empty (fuel : nat) (s : State App) :
  items_of s = [] -> publish net (S fuel) s = Some (Returned tt s).
Proof.
  unfold items_of. intros H. simpl.
  unfold queue_peek, attr, ZerynthMessageQueue.peek.
  rewrite H. reflexivity.
Qed.

Lemma publish_success (fuel : nat) (s : State App) m rest :
  items_of s = m :: rest ->
  net_publish net (trace s) m = true ->
  publish net (S fuel) s = publish net fuel (after_success m rest s).
Proof.
  unfold items_of. intros H Hok. simpl.
  unfold queue_peek, attr, ZerynthMessageQueue.peek. rewrite H.
  unfold connectivity_publish. rewrite Hok.
  unfold queue_get, ZerynthMessageQueue.get. simpl. rewrite H. reflexivity.
Qed.

Lemma publish_failure (fuel : nat) (s : State App) m rest :
  items_of s = m :: rest ->
  net_publish net (trace s) m = false ->
  publish net (S fuel) s = publish net fuel (after_failure m s).
Proof.
  unfold items_of. intros H Hko. simpl.
  unfold queue_peek, attr, ZerynthMessageQueue.peek. rewrite H.
  unfold connectivity_publish. rewrite Hko. reflexivity.
Qed.

(** Draining [queue] from [s] when every call succeeds: by induction on
    the buffer, for any fuel above its length. *)
Lemma drain_all (queue : list Message) :
  forall (s : State App) (fuel : nat),
    items_of s = queue ->
    (forall h m, net_publish net (trace s ++ h) m = true) ->
    (List.length queue < fuel)%nat ->
    publish net fuel s = Some (Returned tt (after_drain s)).
Proof.
  induction queue as [|m rest IH]; intros s fuel Hq Hnet Hfuel.
  - destruct fuel as [|fuel]; [simpl in Hfuel; lia|].
    rewrite publish_empty by assumption.
    unfold after_drain. rewrite Hq. simpl. rewrite app_nil_r.
    destruct s as [w a tr]; destruct w as [? ? ? [? ?] ? ? ? ? ? ? ? ?].
    unfold items_of, maxsize_of in *. simpl in *. subst. reflexivity.
  - destruct fuel as [|fuel]; [simpl in Hfuel; lia|].
    rewrite (publish_success fuel s Hq).
    2:{ specialize (Hnet [] m). rewrite app_nil_r in Hnet. exact Hnet. }
    rewrite (IH (after_success m rest s) fuel).
    + unfold after_drain. rewrite Hq. unfold items_of, maxsize_of. simpl.
      rewrite <- app_assoc. reflexivity.
    + reflexivity.
    + intros h m'. simpl. rewrite <- app_assoc. apply Hnet.
    + simpl in Hfuel. lia.
Qed.

(** A refused head keeps the loop going for as long as the network keeps
    refusing: no amount of fuel brings it to its [break]. *)
Lemma drain_stuck (fuel : nat) :
  forall (s : State App),
    items_of s <> [] ->
    (forall h m, net_publish net (trace s ++ h) m = false) ->
    publish net fuel s = None.
Proof.
  induction fuel as [|fuel IH]; intros s Hne Hnet; [reflexivity|].
  destruct (items_of s) as [|m rest] eqn:Hq; [contradiction|].
  rewrite (publish_failure fuel s Hq).
  2:{ specialize (Hnet [] m). rewrite app_nil_r in Hnet. exact Hnet. }
  apply IH.
  - unfold items_of in *. simpl. rewrite Hq. discriminate.
  - intros h m'. simpl. rewrite <- app_assoc. apply Hnet.
Qed.

(** C3. When the transport accepts every call, [publish()] returns (any
    fuel above the buffer's length is enough), the buffer is empty
    afterwards, and what the transport was handed during the drain is
    exactly the buffered messages, each once, oldest first. *)
Theorem publish_all_success_empties_in_order :
  forall (s : State App),
    (forall h m, net_publish net h m = true) ->
    exists s',
      (forall fuel, (List.length (items_of s) < fuel)%nat ->
                    publish net fuel s = Some (Returned tt s'))
      /\ items_of s' = []
      /\ trace s' = trace s ++ map (fun m => EvPublish m true) (items_of s)
      /\ app s' = app s
      /\ last_platform_timestamp (self s') = last_platform_timestamp (self s).
Proof.
  intros s Hnet. exists (after_drain s). split; [|repeat split].
  intros fuel Hfuel. apply drain_all with (queue := items_of s); auto.
Qed.

End Drain.

(** C2. With an unreachable broker and one message buffered, [publish()]
    does not return: the refused message is offered again and again. *)
Theorem publish_never_returns_on_unreachable_broker :
  forall fuel : nat,
    publish Demo.net_down fuel (Demo.holding [Demo.m1]) = None.
Proof.
  intros fuel. apply drain_stuck.
  - discriminate.
  - reflexivity.
Qed.

(** C1. Two messages buffered, the broker refuses the first call only:
    the drain does not stop at the refusal.  It offers the same message
    again, then the next one, and returns with an empty buffer; within
    three iterations it has not returned at all. *)
Theorem publish_retries_refused_head :
  let s := Demo.holding [Demo.m1; Demo.m2] in
  publish Demo.net_first_publish_fails 1 s = None
  /\ publish Demo.net_first_publish_fails 3 s = None
  /\ exists s',
       publish Demo.net_first_publish_fails 4 s = Some (Returned tt s')
       /\ items_of s' = []
       /\ trace s' = [EvPublish Demo.m1 false; EvPublish Demo.m1 true;
                      EvPublish Demo.m2 true].
Proof.
  repeat split. eexists. repeat split.
Qed.

(** The hypothesis of C3 holds of the accepting broker; two messages. *)
Lemma publish_all_success_empties_in_order_witness :
  (forall h m, net_publish Demo.net_up h m = true)
  /\ exists s',
       (forall fuel, (2 < fuel)%nat ->
          publish Demo.net_up fuel (Demo.holding [Demo.m1; Demo.m2])
          = Some (Returned tt s'))
       /\ items_of s' = []
       /\ trace s' = [EvPublish Demo.m1 true; EvPublish Demo.m2 true].
Proof.
  split; [reflexivity|].
  destruct (@publish_all_success_empties_in_order Demo.App Demo.net_up
              (Demo.holding [Demo.m1; Demo.m2]))
    as [s' [Hrun [Hq [Htr _]]]]; [reflexivity|].
  exists s'. auto.
Defined.

(* ================================================================= *)
(** ** The side-effect publishers and the dispatcher *)

Section Dispatch.

Context {App : Type}.
Variable net : Network.

(** What the actuation branch leaves behind. *)
Lemma actuation_footprint (m : Message) (s : State App) :
  is_actuation_command (message_deserializer (self s)) m = true ->
  footprint ActuationCommand m s (final_state (_on_inbound_message net m s)).
Proof.
  intros Hact. unfold footprint. unfold_methods. simpl. rewrite Hact.
  repeat (branch; simpl in * ); (split; [reflexivity|]);
    try (exists []; split; [symmetry; apply app_nil_r | reflexivity]);
    extends_trace.
Qed.

(** What the configuration branch leaves behind. *)
Lemma configuration_footprint (m : Message) (s : State App) :
  is_actuation_command (message_deserializer (self s)) m = false ->
  is_configuration_command (message_deserializer (self s)) m = true ->
  footprint ConfigurationCommand m s (final_state (_on_inbound_message net m s)).
Proof.
  intros Hact Hconf. unfold footprint. unfold_methods. simpl.
  rewrite Hact, Hconf.
  repeat (branch; simpl in * ); (split; [reflexivity|]);
    try (exists []; split; [symmetry; apply app_nil_r | reflexivity]);
    extends_trace.
Qed.

(** The branch that the classification names is the one that runs. *)
Lemma dispatch_fires (m : Message) (s : State App) :
  fires net (spec_classify (message_deserializer (self s)) m) m s
        (_on_inbound_message net m s).
Proof.
  unfold fires, spec_classify.
  destruct (is_actuation_command (message_deserializer (self s)) m) eqn:Hact.
  { destruct (actuation_handler (self s)) as [h|] eqn:Hh;
      destruct (actuator_status_provider (self s)) as [p|] eqn:Hp;
      try (unfold _on_inbound_message, bind, attr, ret;
           rewrite Hact, Hh, ?Hp; reflexivity).
    split.
    - unfold _on_inbound_message, bind, attr, ret.
      rewrite Hact, Hh, Hp. reflexivity.
    - unfold_methods. simpl. rewrite Hact, Hh, Hp. simpl.
      repeat (branch; simpl in * ); rewrite <- ?app_assoc; simpl;
        eexists; reflexivity. }
  destruct (is_configuration_command (message_deserializer (self s)) m) eqn:Hconf.
  { destruct (configuration_handler (self s)) as [h|] eqn:Hh;
      destruct (configuration_provider (self s)) as [p|] eqn:Hp;
      try (unfold _on_inbound_message, bind, attr, ret;
           rewrite Hact, Hconf, Hh, ?Hp; reflexivity);
      try (unfold _on_inbound_message, bind, attr, ret;
           rewrite Hact, Hconf, Hp, ?Hh; reflexivity).
    split.
    - unfold _on_inbound_message, bind, attr, ret.
      rewrite Hact, Hconf, Hp, Hh. reflexivity.
    - unfold_methods. simpl. rewrite Hact, Hconf, Hp, Hh. simpl.
      repeat (branch; simpl in * ); rewrite <- ?app_assoc; simpl;
        eexists; reflexivity. }
  unfold _on_inbound_message, bind, attr, ret, update_self.
  rewrite Hact, Hconf.
  destruct (is_keep_alive_response (message_deserializer (self s)) m);
    [eexists; split; reflexivity | reflexivity].
Qed.

(** C4. Every inbound message gets exactly one of the four
    classifications, the first predicate in the order actuation,
    configuration, keep-alive that accepts it, whatever the later ones say;
    the branch of that classification is the one the dispatcher runs (its
    handler is called first thing and its response published after, or the
    timestamp stored), it leaves the footprint of that classification and
    of no other; and a message that no predicate accepts changes nothing
    and raises nothing. *)
Theorem dispatch_first_match_wins :
  forall (m : Message) (s : State App),
    let d := message_deserializer (self s) in
    let o := _on_inbound_message net m s in
    (exists! c, spec_classify d m = c
                /\ footprint c m s (final_state o)
                /\ fires net c m s o)
    /\ (spec_classify d m = ActuationCommand
        <-> is_actuation_command d m = true)
    /\ (spec_classify d m = ConfigurationCommand
        <-> is_actuation_command d m = false
            /\ is_configuration_command d m = true)
    /\ (spec_classify d m = KeepAliveResponse
        <-> is_actuation_command d m = false
            /\ is_configuration_command d m = false
            /\ is_keep_alive_response d m = true)
    /\ (spec_classify d m = Unknown
        <-> is_actuation_command d m = false
            /\ is_configuration_command d m = false
            /\ is_keep_alive_response d m = false)
    /\ (spec_classify d m = Unknown -> o = Returned tt s)
    /\ (is_actuation_command d m = true ->
        fires net ActuationCommand m s o
        /\ footprint ActuationCommand m s (final_state o))
    /\ (is_actuation_command d m = false ->
        is_configuration_command d m = true ->
        fires net ConfigurationCommand m s o
        /\ footprint ConfigurationCommand m s (final_state o))
    /\ (is_actuation_command d m = false ->
        is_configuration_command d m = false ->
        is_keep_alive_response d m = true ->
        fires net KeepAliveResponse m s o
        /\ footprint KeepAliveResponse m s (final_state o)).
Proof.
  intros m s d o.
  assert (Hfoot : footprint (spec_classify d m) m s (final_state o)).
  { unfold spec_classify.
    destruct (is_actuation_command d m) eqn:Hact.
    { apply actuation_footprint; assumption. }
    destruct (is_configuration_command d m) eqn:Hconf.
    { apply configuration_footprint; assumption. }
    subst o. unfold footprint, _on_inbound_message, bind, attr, ret, update_self.
    fold d. rewrite Hact, Hconf.
    destruct (is_keep_alive_response d m) eqn:Hka; simpl; auto. }
  pose proof (dispatch_fires m s) as Hfires. fold d o in Hfires.
  split.
  { exists (spec_classify d m). split.
    - split; [reflexivity | split; assumption].
    - intros c [Hc _]. exact Hc. }
  assert (Hclass :
            (spec_classify d m = ActuationCommand
             <-> is_actuation_command d m = true)
            /\ (spec_classify d m = ConfigurationCommand
                <-> is_actuation_command d m = false
                    /\ is_configuration_command d m = true)
            /\ (spec_classify d m = KeepAliveResponse
                <-> is_actuation_command d m = false
                    /\ is_configuration_command d m = false
                    /\ is_keep_alive_response d m = true)
            /\ (spec_classify d m = Unknown
                <-> is_actuation_command d m = false
                    /\ is_configuration_command d m = false
                    /\ is_keep_alive_response d m = false)).
  { unfold spec_classify.
    destruct (is_actuation_command d m), (is_configuration_command d m),
             (is_keep_alive_response d m);
      repeat split; intros; try discriminate; try reflexivity;
        repeat match goal with H : _ /\ _ |- _ => destruct H end;
        try discriminate. }
  destruct Hclass as [Ha [Hc [Hk Hu]]].
  split; [exact Ha|]. split; [exact Hc|]. split; [exact Hk|].
  split; [exact Hu|].
  split.
  { intros H. rewrite H in Hfires. exact Hfires. }
  split.
  { intros H. apply Ha in H. rewrite H in Hfires, Hfoot. split; assumption. }
  split.
  { intros H1 H2. assert (H : spec_classify d m = ConfigurationCommand)
      by (apply Hc; split; assumption).
    rewrite H in Hfires, Hfoot. split; assumption. }
  intros H1 H2 H3. assert (H : spec_classify d m = KeepAliveResponse)
    by (apply Hk; repeat split; assumption).
  rewrite H in Hfires, Hfoot. split; assumption.
Qed.

End Dispatch.

Section Publishers.

Context {App : Type}.
Variable net : Network.

Lemma put_appends_when_room (message : Message) (q : ZerynthMessageQueue.t) :
  Z.of_nat (List.length (ZerynthMessageQueue.items q)) < ZerynthMessageQueue.maxsize q ->
  ZerynthMessageQueue.items (snd (ZerynthMessageQueue.put message q))
  = ZerynthMessageQueue.items q ++ [message].
Proof.
  intros Hroom. unfold ZerynthMessageQueue.put.
  apply Z.ltb_lt in Hroom. rewrite Hroom. reflexivity.
Qed.

Lemma not_own_extension {A : Type} (l : list A) (x : A) : l <> l ++ [x].
Proof.
  intros H. apply (f_equal (@List.length A)) in H.
  rewrite length_app in H. simpl in H. lia.
Qed.

(** The buffer after a side-effect publish whose immediate attempt ended
    with [ok]. *)
Lemma fallback_queue (message : Message) (ok : bool) (s s' : State App) :
  message_queue (self s')
  = (if ok then message_queue (self s)
     else snd (ZerynthMessageQueue.put message (message_queue (self s)))) ->
  (ok = true -> items_of s' = items_of s)
  /\ (Z.of_nat (List.length (items_of s)) < maxsize_of s ->
      (items_of s' = items_of s ++ [message] <-> ok = false)).
Proof.
  unfold items_of, maxsize_of. intros Hq. split.
  - intros ->. rewrite Hq. reflexivity.
  - intros Hroom. rewrite Hq. destruct ok.
    + split; [|discriminate]. intros H. exfalso. exact (@not_own_extension _ _ _ H).
    + split; [reflexivity|]. intros _. apply put_appends_when_room. exact Hroom.
Qed.

(** C8. With its provider registered (and returning),
    [publish_actuator_status] hands the encoded status to the transport
    exactly once and calls [put] on the buffer exactly when that attempt
    failed: on success the buffer is as before, on failure it is the buffer
    after [put], which, room permitting, ends with the message.  The same
    for [publish_configuration] with its handler and provider registered. *)
Theorem side_effect_publishers_buffer_iff_publish_fails :
  (forall (reference : string) (s : State App) p state value app',
      actuator_status_provider (self s) = Some p ->
      p reference (app s) = Some ((state, value), app') ->
      let message :=
        make_from_actuator_status (message_factory (self s))
                                  (mkActuatorStatus reference state value) in
      let ok := net_publish net (trace s ++ [EvActuatorStatusProvider reference])
                            message in
      exists s',
        publish_actuator_status net reference s = Returned tt s'
        /\ trace s' = trace s ++ [EvActuatorStatusProvider reference;
                                  EvPublish message ok]
        /\ message_queue (self s')
           = (if ok then message_queue (self s)
              else snd (ZerynthMessageQueue.put message (message_queue (self s))))
        /\ (ok = true -> items_of s' = items_of s)
        /\ (Z.of_nat (List.length (items_of s)) < maxsize_of s ->
            (items_of s' = items_of s ++ [message] <-> ok = false)))
  /\
  (forall (s : State App) h p configuration app',
      configuration_handler (self s) = Some h ->
      configuration_provider (self s) = Some p ->
      p (app s) = Some (configuration, app') ->
      let message :=
        make_from_configuration (message_factory (self s)) configuration in
      let ok := net_publish net (trace s ++ [EvConfigurationProvider]) message in
      exists s',
        publish_configuration net s = Returned tt s'
        /\ trace s' = trace s ++ [EvConfigurationProvider; EvPublish message ok]
        /\ message_queue (self s')
           = (if ok then message_queue (self s)
              else snd (ZerynthMessageQueue.put message (message_queue (self s))))
        /\ (ok = true -> items_of s' = items_of s)
        /\ (Z.of_nat (List.length (items_of s)) < maxsize_of s ->
            (items_of s' = items_of s ++ [message] <-> ok = false))).
Proof.
  split.
  - intros reference s p state value app' Hp Hret message ok.
    assert (H : exists s',
               publish_actuator_status net reference s = Returned tt s'
               /\ trace s' = trace s ++ [EvActuatorStatusProvider reference;
                                         EvPublish message ok]
               /\ message_queue (self s')
                  = (if ok then message_queue (self s)
                     else snd (ZerynthMessageQueue.put message
                                                       (message_queue (self s))))).
    { subst message ok. unfold_methods. simpl. rewrite Hp, Hret. simpl.
      destruct (net_publish net _ _); simpl.
      - eexists. split; [reflexivity|]. simpl.
        rewrite <- app_assoc. split; reflexivity.
      - destruct (Z.of_nat _ <? _); simpl;
          (eexists; split; [reflexivity|]); simpl;
          rewrite <- app_assoc; split; reflexivity. }
    destruct H as [s' [Hrun [Htr Hq]]]. exists s'.
    repeat split; try assumption; apply (fallback_queue _ _ _ _ Hq); assumption.
  - intros s h p configuration app' Hh Hp Hret message ok.
    assert (H : exists s',
               publish_configuration net s = Returned tt s'
               /\ trace s' = trace s ++ [EvConfigurationProvider;
                                         EvPublish message ok]
               /\ message_queue (self s')
                  = (if ok then message_queue (self s)
                     else snd (ZerynthMessageQueue.put message
                                                       (message_queue (self s))))).
    { subst message ok. unfold_methods. simpl. rewrite Hh, Hp, Hret. simpl.
      destruct (net_publish net _ _); simpl.
      - eexists. split; [reflexivity|]. simpl.
        rewrite <- app_assoc. split; reflexivity.
      - destruct (Z.of_nat _ <? _); simpl;
          (eexists; split; [reflexivity|]); simpl;
          rewrite <- app_assoc; split; reflexivity. }
    destruct H as [s' [Hrun [Htr Hq]]]. exists s'.
    repeat split; try assumption; apply (fallback_queue _ _ _ _ Hq); assumption.
Qed.

End Publishers.

Section Commands.

Context {App : Type}.
Variable net : Network.

(** C5. An inbound message that the actuation predicate accepts: with a
    handler and a status provider registered (and returning), the handler
    is called once, with the parsed reference and value, and after it one
    status for that same reference is queried and handed to the transport
    once; with either of the two missing, nothing happens at all. *)
Theorem actuation_command_handled_then_status_published :
  forall (m : Message) (s : State App),
    let d := message_deserializer (self s) in
    let actuation := parse_actuator_command d m in
    let reference := ac_reference actuation in
    is_actuation_command d m = true ->
    (forall h p app1 state value app2,
        actuation_handler (self s) = Some h ->
        actuator_status_provider (self s) = Some p ->
        h reference (ac_value actuation) (app s) = Some app1 ->
        p reference app1 = Some ((state, value), app2) ->
        let status :=
          make_from_actuator_status (message_factory (self s))
                                    (mkActuatorStatus reference state value) in
        let ok :=
          net_publish net
            (trace s ++ [EvActuationHandler reference (ac_value actuation);
                         EvActuatorStatusProvider reference]) status in
        exists s',
          _on_inbound_message net m s = Returned tt s'
          /\ trace s' = trace s ++ [EvActuationHandler reference (ac_value actuation);
                                    EvActuatorStatusProvider reference;
                                    EvPublish status ok]
          /\ app s' = app2)
    /\ (actuation_handler (self s) = None
        \/ actuator_status_provider (self s) = None ->
        _on_inbound_message net m s = Returned tt s).
Proof.
  intros m s d actuation reference Hact. split.
  - intros h p app1 state value app2 Hh Hp Hcall Hstatus status ok.
    subst ok status reference actuation d. unfold_methods. simpl.
    rewrite Hact, Hh, Hp. simpl. rewrite Hcall. simpl. rewrite Hp. simpl.
    rewrite Hstatus. simpl. rewrite <- !app_assoc. simpl.
    destruct (net_publish net _ _); simpl.
    + eexists. split; [reflexivity|]. simpl.
      rewrite <- ?app_assoc. split; reflexivity.
    + destruct (Z.of_nat _ <? _); simpl;
        (eexists; split; [reflexivity|]); simpl;
        rewrite <- ?app_assoc; split; reflexivity.
  - intros Habsent. subst reference actuation d. unfold_methods. simpl.
    rewrite Hact.
    destruct Habsent as [H|H]; rewrite H;
      [|destruct (actuation_handler (self s))]; reflexivity.
Qed.

(** C10. The guard of [publish_configuration] looks at the handler only.
    The call returns having handed nothing to the transport and left the
    buffer untouched exactly when the handler is [None]; with a handler,
    the provider is called whatever it is, so a missing provider is a
    [TypeError] and not a no-op, and a registered one is called before
    anything else and what it returns is encoded and handed to the
    transport once (going into the buffer if refused); hence a call that
    returns with a handler registered has its provider registered and has
    made exactly one publish call. *)
Theorem publish_configuration_guard_is_handler_only :
  forall (s : State App),
    ((exists s' l, publish_configuration net s = Returned tt s'
                   /\ trace s' = trace s ++ l
                   /\ attempts l = []
                   /\ message_queue (self s') = message_queue (self s))
     <-> configuration_handler (self s) = None)
    /\ ((exists s', publish_configuration net s = Returned tt s'
                    /\ trace s' = trace s
                    /\ message_queue (self s') = message_queue (self s))
        <-> configuration_handler (self s) = None)
    /\ (configuration_handler (self s) = None ->
        publish_configuration net s = Returned tt s)
    /\ (configuration_handler (self s) <> None ->
        configuration_provider (self s) = None ->
        publish_configuration net s = Raised TypeError s)
    /\ (configuration_handler (self s) <> None ->
        configuration_provider (self s) <> None ->
        exists l, trace (final_state (publish_configuration net s))
                  = trace s ++ EvConfigurationProvider :: l)
    /\ (forall s', publish_configuration net s = Returned tt s' ->
                   configuration_handler (self s) <> None ->
                   configuration_provider (self s) <> None)
    /\ (forall p configuration app',
           configuration_handler (self s) <> None ->
           configuration_provider (self s) = Some p ->
           p (app s) = Some (configuration, app') ->
           let message :=
             make_from_configuration (message_factory (self s)) configuration in
           let ok :=
             net_publish net (trace s ++ [EvConfigurationProvider]) message in
           exists s',
             publish_configuration net s = Returned tt s'
             /\ trace s' = trace s ++ [EvConfigurationProvider;
                                       EvPublish message ok]
             /\ attempts [EvConfigurationProvider; EvPublish message ok]
                = [message]
             /\ app s' = app'
             /\ message_queue (self s')
                = (if ok then message_queue (self s)
                   else snd (ZerynthMessageQueue.put message
                                                     (message_queue (self s)))))
    /\ (forall p,
           configuration_handler (self s) <> None ->
           configuration_provider (self s) = Some p ->
           p (app s) = None ->
           publish_configuration net s
           = Raised CallbackRaised
               (mkState (self s) (app s) (trace s ++ [EvConfigurationProvider])))
    /\ (forall s' l,
           publish_configuration net s = Returned tt s' ->
           trace s' = trace s ++ l ->
           configuration_handler (self s) <> None ->
           exists message, attempts l = [message]).
Proof.
  intros s.
  assert (Hnone : configuration_handler (self s) = None ->
                  publish_configuration net s = Returned tt s).
  { intros H. unfold_methods. rewrite H. reflexivity. }
  assert (Hfault : configuration_handler (self s) <> None ->
                   configuration_provider (self s) = None ->
                   publish_configuration net s = Raised TypeError s).
  { intros Hh Hp. unfold_methods.
    destruct (configuration_handler (self s)); [|contradiction].
    simpl. rewrite Hp. reflexivity. }
  assert (Hcalls : configuration_handler (self s) <> None ->
                   configuration_provider (self s) <> None ->
                   exists l, trace (final_state (publish_configuration net s))
                             = trace s ++ EvConfigurationProvider :: l).
  { intros Hh Hp. unfold_methods.
    destruct (configuration_handler (self s)); [|contradiction].
    destruct (configuration_provider (self s)) as [p|]; [|contradiction].
    simpl. repeat (branch; simpl);
      rewrite <- ?app_assoc; simpl; eexists; reflexivity. }
  assert (Hpub : forall p configuration app',
             configuration_handler (self s) <> None ->
             configuration_provider (self s) = Some p ->
             p (app s) = Some (configuration, app') ->
             exists s',
               publish_configuration net s = Returned tt s'
               /\ trace s'
                  = trace s
                    ++ [EvConfigurationProvider;
                        EvPublish
                          (make_from_configuration (message_factory (self s))
                                                   configuration)
                          (net_publish net (trace s ++ [EvConfigurationProvider])
                             (make_from_configuration (message_factory (self s))
                                                      configuration))]
               /\ app s' = app'
               /\ message_queue (self s')
                  = (if net_publish net (trace s ++ [EvConfigurationProvider])
                          (make_from_configuration (message_factory (self s))
                                                   configuration)
                     then message_queue (self s)
                     else snd (ZerynthMessageQueue.put
                                 (make_from_configuration
                                    (message_factory (self s)) configuration)
                                 (message_queue (self s))))).
  { intros p configuration app' Hh Hp Hret. unfold_methods.
    destruct (configuration_handler (self s)); [|contradiction].
    simpl. rewrite Hp. simpl. rewrite Hret. simpl.
    destruct (net_publish net _ _); simpl.
    - eexists. split; [reflexivity|]. simpl.
      rewrite <- app_assoc. repeat split.
    - destruct (Z.of_nat _ <? _); simpl;
        (eexists; split; [reflexivity|]); simpl;
        rewrite <- app_assoc; repeat split. }
  assert (Hraise : forall p,
             configuration_handler (self s) <> None ->
             configuration_provider (self s) = Some p ->
             p (app s) = None ->
             publish_configuration net s
             = Raised CallbackRaised
                 (mkState (self s) (app s)
                          (trace s ++ [EvConfigurationProvider]))).
  { intros p Hh Hp Hret. unfold_methods.
    destruct (configuration_handler (self s)); [|contradiction].
    simpl. rewrite Hp. simpl. rewrite Hret. reflexivity. }
  assert (Hone : forall s' l,
             publish_configuration net s = Returned tt s' ->
             trace s' = trace s ++ l ->
             configuration_handler (self s) <> None ->
             exists message, attempts l = [message]).
  { intros s' l Hrun Htr Hh.
    destruct (configuration_provider (self s)) as [p|] eqn:Hp.
    - destruct (p (app s)) as [[configuration app']|] eqn:Hret.
      + destruct (Hpub p configuration app' Hh eq_refl Hret)
          as [s'' [Hrun' [Htr' _]]].
        rewrite Hrun in Hrun'. injection Hrun' as <-.
        rewrite Htr in Htr'. apply app_inv_head in Htr'. subst l.
        eexists. reflexivity.
      + rewrite (Hraise p Hh eq_refl Hret) in Hrun. discriminate.
    - rewrite (Hfault Hh eq_refl) in Hrun. discriminate. }
  split; [|split; [|split; [|split; [|split; [|split; [|split; [|split]]]]]]].
  - split.
    + intros [s' [l [Hrun [Htr [Hnopub _]]]]].
      destruct (configuration_handler (self s)) as [h|] eqn:Hh; [|reflexivity].
      exfalso.
      destruct (Hone s' l Hrun Htr) as [message Hm]; [discriminate|].
      rewrite Hm in Hnopub. discriminate.
    + intros H. exists s, []. rewrite app_nil_r. auto.
  - split.
    + intros [s' [Hrun [Htr _]]].
      destruct (configuration_handler (self s)) as [h|] eqn:Hh; [|reflexivity].
      exfalso.
      destruct (Hone s' [] Hrun) as [message Hm];
        [rewrite app_nil_r; exact Htr | discriminate | discriminate].
    + intros H. exists s. auto.
  - exact Hnone.
  - exact Hfault.
  - exact Hcalls.
  - intros s' Hrun Hh Hp. rewrite (Hfault Hh Hp) in Hrun. discriminate.
  - intros p configuration app' Hh Hp Hret message ok.
    destruct (Hpub p configuration app' Hh Hp Hret)
      as [s' [Hrun [Htr [Happ Hq]]]].
    exists s'. repeat split; assumption.
  - exact Hraise.
  - exact Hone.
Qed.

End Commands.

(* ================================================================= *)
(** ** Construction *)

Section Construction.

Context {App : Type}.
Variable WolkAboutProtocolMessageFactory : string -> MessageFactory.
Variable WolkAboutProtocolMessageDeserializer : Device -> MessageDeserializer.

(** C6. For a device that declares at least one actuator reference,
    construction raises [InterfaceNotProvided] when the actuation handler
    or the actuator status provider is missing, and yields a connector,
    holding exactly what it was given, when both are there. *)
Theorem construction_requires_actuator_interfaces :
  forall (dev : Device) (host : string) (port : Z)
         (handler : option (@ActuationHandler App))
         (provider : option (@ActuatorStatusProvider App))
         on_configuration configuration
         (message_queue_size : Z) (keep_alive : bool)
         (reference : string) (others : list string),
    actuator_references dev = Some (reference :: others) ->
    let construct :=
      __init__ WolkAboutProtocolMessageFactory
               WolkAboutProtocolMessageDeserializer
               dev host port handler provider on_configuration configuration
               message_queue_size keep_alive in
    (handler = None \/ provider = None -> construct = Err InterfaceNotProvided)
    /\ (handler <> None -> provider <> None ->
        exists w, construct = Ok w
                  /\ device w = dev
                  /\ actuation_handler w = handler
                  /\ actuator_status_provider w = provider
                  /\ ZerynthMessageQueue.items (message_queue w) = []
                  /\ last_platform_timestamp w = None).
Proof.
  intros dev host port ah asp ch cp size enabled reference others Hrefs
         construct.
  subst construct. unfold __init__. rewrite Hrefs. simpl. split.
  - intros [H|H]; rewrite H; [|destruct ah]; reflexivity.
  - intros Hah Hasp.
    destruct ah; [|contradiction]. destruct asp; [|contradiction].
    simpl. eexists. repeat split.
Qed.

End Construction.

(* ================================================================= *)
(** ** The platform timestamp *)

Section Timestamp.

Context {App : Type}.
Variable WolkAboutProtocolMessageFactory : string -> MessageFactory.
Variable WolkAboutProtocolMessageDeserializer : Device -> MessageDeserializer.
Variable net : Network.

Lemma publish_keeps_timestamp (fuel : nat) :
  forall (s : State App) o,
    publish net fuel s = Some o -> last_platform_timestamp (self (final_state o)) = last_platform_timestamp (self s).
Proof.
  induction fuel as [|fuel IH]; intros s o Hrun; [discriminate|].
  destruct (items_of s) as [|m rest] eqn:Hq.
  - rewrite publish_empty in Hrun by assumption.
    injection Hrun as <-. reflexivity.
  - destruct (net_publish net (trace s) m) eqn:Hok.
    + rewrite (publish_success net fuel s Hq Hok) in Hrun.
      apply IH in Hrun. exact Hrun.
    + rewrite (publish_failure net fuel s Hq Hok) in Hrun.
      apply IH in Hrun. exact Hrun.
Qed.

Lemma dispatch_keeps_timestamp (m : Message) (s : State App) :
  reaches_keep_alive_branch (Inbound m) s = false ->
  last_platform_timestamp
    (self (final_state (_on_inbound_message net m s))) = last_platform_timestamp (self s).
Proof.
  unfold reaches_keep_alive_branch. intros Hno.
  destruct (is_actuation_command (message_deserializer (self s)) m) eqn:Hact.
  { apply (actuation_footprint net m s Hact). }
  destruct (is_configuration_command (message_deserializer (self s)) m) eqn:Hconf.
  { apply (configuration_footprint net m s Hact Hconf). }
  simpl in Hno.
  unfold _on_inbound_message, bind, attr, ret.
  rewrite Hact, Hconf, Hno. reflexivity.
Qed.

Lemma exec_keeps_timestamp (fuel : nat) (c : Call) (s s' : State App) :
  exec net fuel c s = Some s' ->
  reaches_keep_alive_branch c s = false ->
  last_platform_timestamp (self s') = last_platform_timestamp (self s).
Proof.
  intros Hexec Hno. destruct c; simpl in Hexec;
    try (injection Hexec as <-).
  - crunch; reflexivity.
  - crunch; reflexivity.
  - crunch; reflexivity.
  - crunch; reflexivity.
  - destruct (publish net fuel s) as [o|] eqn:Hrun; [|discriminate].
    simpl in Hexec. injection Hexec as <-.
    apply (publish_keeps_timestamp _ _ Hrun).
  - crunch; reflexivity.
  - crunch; reflexivity.
  - reflexivity.
  - apply dispatch_keeps_timestamp. exact Hno.
  - crunch; reflexivity.
Qed.

Lemma run_keeps_timestamp (fuel : nat) (cs : list Call) :
  forall (s s' : State App),
    no_keep_alive_branch net fuel cs s = true ->
    run net fuel cs s = Some s' ->
    last_platform_timestamp (self s') = last_platform_timestamp (self s).
Proof.
  induction cs as [|c cs IH]; intros s s' Hno Hrun; simpl in *.
  - injection Hrun as <-. reflexivity.
  - apply andb_prop in Hno. destruct Hno as [Hc Hrest].
    apply negb_true_iff in Hc.
    destruct (exec net fuel c s) as [s1|] eqn:Hexec; [|discriminate].
    rewrite (IH s1 s' Hrest Hrun).
    apply (exec_keeps_timestamp _ _ _ Hexec Hc).
Qed.

(** Under the codec's contract, the third [if] is reached by exactly the
    messages its predicate accepts. *)
Lemma exclusive_reaches_keep_alive (m : Message) (s : State App) :
  exclusive_predicates (message_deserializer (self s)) ->
  reaches_keep_alive_branch (Inbound m) s
  = is_keep_alive_response (message_deserializer (self s)) m.
Proof.
  intros Hex. destruct (Hex m) as [Hact Hconf]. simpl.
  destruct (is_actuation_command _ m).
  { destruct Hact as [_ ->]; reflexivity. }
  destruct (is_configuration_command _ m).
  { rewrite Hconf; reflexivity. }
  reflexivity.
Qed.

(** A message that gets to the third [if] and passes it: the parsed
    timestamp is stored, everything else is as before. *)
Lemma keep_alive_branch_overwrites (m : Message) (s : State App) :
  reaches_keep_alive_branch (Inbound m) s = true ->
  _on_inbound_message net m s
  = Returned tt
      (mkState (set_last_platform_timestamp
                  (Some (parse_keep_alive_response
                           (message_deserializer (self s)) m)) (self s))
               (app s) (trace s)).
Proof.
  simpl. intros Hreach.
  apply andb_prop in Hreach. destruct Hreach as [Hreach Hka].
  apply andb_prop in Hreach. destruct Hreach as [Hact Hconf].
  apply negb_true_iff in Hact, Hconf.
  unfold _on_inbound_message, bind, attr, update_self.
  rewrite Hact, Hconf, Hka. reflexivity.
Qed.

(** C7. The timestamp is [None] in a freshly constructed connector; no
    call changes it except an inbound message that reaches the dispatcher's
    keep-alive branch, so it is still [None], and [request_timestamp()]
    returns [None], after any run without such a message; every message
    that reaches that branch, which with a codec whose predicates exclude
    one another is every message the keep-alive predicate accepts,
    overwrites it with the parsed timestamp, which is what
    [request_timestamp()] returns from then on, and touches nothing else;
    and [request_timestamp()] returns the current value and changes
    nothing. *)
Theorem last_platform_timestamp_lifecycle :
  (forall dev host port handler provider on_configuration configuration
          message_queue_size keep_alive (w : Wolk App),
      __init__ WolkAboutProtocolMessageFactory
               WolkAboutProtocolMessageDeserializer
               dev host port handler provider on_configuration configuration
               message_queue_size keep_alive = Ok w ->
      last_platform_timestamp w = None)
  /\ (forall fuel c (s s' : State App),
         exec net fuel c s = Some s' ->
         reaches_keep_alive_branch c s = false ->
         last_platform_timestamp (self s') = last_platform_timestamp (self s))
  /\ (forall fuel cs (s s' : State App),
         last_platform_timestamp (self s) = None ->
         no_keep_alive_branch net fuel cs s = true ->
         run net fuel cs s = Some s' ->
         request_timestamp s' = Returned None s')
  /\ (forall (m : Message) (s : State App),
         let d := message_deserializer (self s) in
         reaches_keep_alive_branch (Inbound m) s = true ->
         exists s',
           _on_inbound_message net m s = Returned tt s'
           /\ last_platform_timestamp (self s')
              = Some (parse_keep_alive_response d m)
           /\ request_timestamp s'
              = Returned (Some (parse_keep_alive_response d m)) s'
           /\ s' = mkState (set_last_platform_timestamp
                              (Some (parse_keep_alive_response d m)) (self s))
                           (app s) (trace s)
           /\ trace s' = trace s
           /\ app s' = app s
           /\ message_queue (self s') = message_queue (self s)
           /\ keep_alive_service (self s') = keep_alive_service (self s)
           /\ same_configuration (self s) (self s'))
  /\ (forall (m : Message) (s : State App),
         let d := message_deserializer (self s) in
         exclusive_predicates d ->
         is_keep_alive_response d m = true ->
         exists s',
           _on_inbound_message net m s = Returned tt s'
           /\ last_platform_timestamp (self s')
              = Some (parse_keep_alive_response d m)
           /\ request_timestamp s'
              = Returned (Some (parse_keep_alive_response d m)) s'
           /\ s' = mkState (set_last_platform_timestamp
                              (Some (parse_keep_alive_response d m)) (self s))
                           (app s) (trace s)
           /\ trace s' = trace s
           /\ app s' = app s
           /\ message_queue (self s') = message_queue (self s)
           /\ keep_alive_service (self s') = keep_alive_service (self s)
           /\ same_configuration (self s) (self s'))
  /\ (forall s : State App,
         request_timestamp s = Returned (last_platform_timestamp (self s)) s).
Proof.
  assert (Hover : forall (m : Message) (s : State App),
             reaches_keep_alive_branch (Inbound m) s = true ->
             exists s',
               _on_inbound_message net m s = Returned tt s'
               /\ last_platform_timestamp (self s')
                  = Some (parse_keep_alive_response
                            (message_deserializer (self s)) m)
               /\ request_timestamp s'
                  = Returned (Some (parse_keep_alive_response
                                      (message_deserializer (self s)) m)) s'
               /\ s' = mkState (set_last_platform_timestamp
                                  (Some (parse_keep_alive_response
                                           (message_deserializer (self s)) m))
                                  (self s))
                               (app s) (trace s)
               /\ trace s' = trace s
               /\ app s' = app s
               /\ message_queue (self s') = message_queue (self s)
               /\ keep_alive_service (self s') = keep_alive_service (self s)
               /\ same_configuration (self s) (self s')).
  { intros m s Hreach.
    rewrite (keep_alive_branch_overwrites m s Hreach).
    eexists. split; [reflexivity|].
    unfold same_configuration, request_timestamp, attr. simpl.
    repeat split. }
  repeat split.
  - intros dev host port ah asp ch cp size enabled w. unfold __init__.
    destruct (_ && _); [discriminate|].
    intros H. injection H as <-. reflexivity.
  - intros fuel c s s'. apply exec_keeps_timestamp.
  - intros fuel cs s s' Hnone Hno Hrun.
    unfold request_timestamp, attr.
    rewrite (run_keeps_timestamp _ _ _ Hno Hrun), Hnone. reflexivity.
  - intros m s d Hreach. apply Hover. exact Hreach.
  - intros m s d Hex Hka. apply Hover.
    rewrite (exclusive_reaches_keep_alive m s Hex). exact Hka.
Qed.

End Timestamp.

(** C9. A connector built with [keep_alive_enabled=False]:
    [request_timestamp()] returns [None] at first, but once the listener
    is handed a keep-alive response it returns the timestamp parsed from
    it.  The dispatcher never looks at [keep_alive_enabled]. *)
Theorem timestamp_recorded_with_keep_alive_disabled :
  let w := Demo.the (Demo.bare_wolk DEFAULT_MESSAGE_QUEUE_SIZE false) in
  let s := Demo.start w in
  Demo.bare_wolk DEFAULT_MESSAGE_QUEUE_SIZE false = Ok w
  /\ keep_alive_enabled w = false
  /\ request_timestamp s = Returned None s
  /\ exists s',
       _on_inbound_message Demo.net_up Demo.pong s = Returned tt s'
       /\ keep_alive_enabled (self s') = false
       /\ request_timestamp s' = Returned (Some 1530000000000) s'.
Proof.
  repeat split. eexists. repeat split.
Qed.

(* ================================================================= *)
(** ** The theorems at work on the demo device *)

(** The four classifications on the demo connector, and a connector whose
    codec accepts every message under all three predicates: there a
    keep-alive response is an actuation command, its handler runs and the
    timestamp stays as it was. *)
Lemma dispatch_first_match_wins_witness :
  let s := Demo.start (Demo.the (Demo.full_wolk 100 true)) in
  let g := Demo.start (Demo.the (Demo.greedy_wolk 100 true)) in
  let unknown := mkMessage "firmware" "v2" in
  (spec_classify (message_deserializer (self s)) unknown = Unknown
   /\ _on_inbound_message Demo.net_up unknown s = Returned tt s)
  /\ (is_keep_alive_response (message_deserializer (self g)) Demo.pong = true
      /\ fires Demo.net_up ActuationCommand Demo.pong g
               (_on_inbound_message Demo.net_up Demo.pong g)
      /\ footprint ActuationCommand Demo.pong g
                   (final_state (_on_inbound_message Demo.net_up Demo.pong g)))
  /\ (fires Demo.net_up ActuationCommand Demo.switch_on s
            (_on_inbound_message Demo.net_up Demo.switch_on s)
      /\ footprint ActuationCommand Demo.switch_on s
                   (final_state (_on_inbound_message Demo.net_up Demo.switch_on s)))
  /\ (fires Demo.net_up ConfigurationCommand Demo.reconfigure s
            (_on_inbound_message Demo.net_up Demo.reconfigure s)
      /\ footprint ConfigurationCommand Demo.reconfigure s
                   (final_state (_on_inbound_message Demo.net_up Demo.reconfigure s)))
  /\ (fires Demo.net_up KeepAliveResponse Demo.pong s
            (_on_inbound_message Demo.net_up Demo.pong s)
      /\ footprint KeepAliveResponse Demo.pong s
                   (final_state (_on_inbound_message Demo.net_up Demo.pong s))).
Proof.
  intros s g unknown.
  pose proof (dispatch_first_match_wins Demo.net_up unknown s) as Hu.
  pose proof (dispatch_first_match_wins Demo.net_up Demo.pong g) as Hg.
  pose proof (dispatch_first_match_wins Demo.net_up Demo.switch_on s) as Ha.
  pose proof (dispatch_first_match_wins Demo.net_up Demo.reconfigure s) as Hc.
  pose proof (dispatch_first_match_wins Demo.net_up Demo.pong s) as Hk.
  cbv zeta in Hu, Hg, Ha, Hc, Hk.
  destruct Hu as [_ [_ [_ [_ [_ [Hu _]]]]]].
  destruct Hg as [_ [_ [_ [_ [_ [_ [Hg _]]]]]]].
  destruct Ha as [_ [_ [_ [_ [_ [_ [Ha _]]]]]]].
  destruct Hc as [_ [_ [_ [_ [_ [_ [_ [Hc _]]]]]]]].
  destruct Hk as [_ [_ [_ [_ [_ [_ [_ [_ Hk]]]]]]]].
  split; [split; [reflexivity | apply Hu; reflexivity]|].
  split; [split; [reflexivity | apply Hg; reflexivity]|].
  split; [apply Ha; reflexivity|].
  split; [apply Hc; reflexivity | apply Hk; reflexivity].
Defined.

(** An actuation command for reference SW, with and without callbacks. *)
Lemma actuation_command_handled_then_status_published_witness :
  let s := Demo.start (Demo.the (Demo.full_wolk 100 true)) in
  let bare := Demo.start (Demo.the (Demo.bare_wolk 100 true)) in
  is_actuation_command (message_deserializer (self s)) Demo.switch_on = true
  /\ (exists s',
        _on_inbound_message Demo.net_up Demo.switch_on s = Returned tt s'
        /\ trace s' = [EvActuationHandler "SW" (VBool true);
                       EvActuatorStatusProvider "SW";
                       EvPublish (mkMessage "actuators/status/dev/SW" "READY") true]
        /\ app s' = VBool true)
  /\ _on_inbound_message Demo.net_up Demo.switch_on bare = Returned tt bare.
Proof.
  intros s bare. split; [reflexivity|]. split.
  - pose proof (actuation_command_handled_then_status_published
                  Demo.net_up Demo.switch_on s) as H.
    cbv zeta in H. destruct H as [H _]; [reflexivity|].
    apply (H Demo.on_actuation Demo.actuator_status (VBool true)
             ACTUATOR_STATE_READY (VBool true) (VBool true));
      reflexivity.
  - pose proof (actuation_command_handled_then_status_published
                  Demo.net_up Demo.switch_on bare) as H.
    cbv zeta in H. destruct H as [_ H]; [reflexivity|].
    apply H. left. reflexivity.
Defined.

(** The thermostat declares actuator SW: no connector without callbacks,
    a connector with them. *)
Lemma construction_requires_actuator_interfaces_witness :
  actuator_references Demo.thermostat = Some ["SW"]
  /\ __init__ Demo.factory Demo.deserializer Demo.thermostat
              DEFAULT_HOST DEFAULT_PORT
              (@None (@ActuationHandler Demo.App)) (Some Demo.actuator_status)
              None None DEFAULT_MESSAGE_QUEUE_SIZE true
     = Err InterfaceNotProvided
  /\ exists w, Demo.full_wolk DEFAULT_MESSAGE_QUEUE_SIZE true = Ok w
               /\ last_platform_timestamp w = None.
Proof.
  split; [reflexivity|]. split.
  - pose proof (@construction_requires_actuator_interfaces
                  Demo.App Demo.factory Demo.deserializer Demo.thermostat
                  DEFAULT_HOST DEFAULT_PORT None (Some Demo.actuator_status)
                  None None DEFAULT_MESSAGE_QUEUE_SIZE true "SW" []) as H.
    cbv zeta in H. destruct H as [H _]; [reflexivity|].
    apply H. left. reflexivity.
  - pose proof (@construction_requires_actuator_interfaces
                  Demo.App Demo.factory Demo.deserializer Demo.thermostat
                  DEFAULT_HOST DEFAULT_PORT (Some Demo.on_actuation)
                  (Some Demo.actuator_status)
                  (Some Demo.on_configuration) (Some Demo.configuration)
                  DEFAULT_MESSAGE_QUEUE_SIZE true "SW" []) as H.
    cbv zeta in H. destruct H as [_ H]; [reflexivity|].
    destruct H as [w [Hw [_ [_ [_ [_ Hts]]]]]]; try discriminate.
    exists w. split; assumption.
Defined.

Lemma demo_codec_exclusive (dev : Device) :
  exclusive_predicates (Demo.deserializer dev).
Proof.
  intros m. simpl. split.
  - intros H. apply String.eqb_eq in H. rewrite H. split; reflexivity.
  - intros H. apply String.eqb_eq in H. rewrite H. reflexivity.
Qed.

(** The timestamp of the demo connector: [None] when built, still [None]
    after an alarm, a drain and an actuation command, the platform's clock
    once its keep-alive response has come in, and the later clock after a
    second response. *)
Lemma last_platform_timestamp_lifecycle_witness :
  let w := Demo.the (Demo.full_wolk 100 true) in
  let s := Demo.start w in
  let d := message_deserializer w in
  let later := mkMessage "pong" "1530000060000" in
  last_platform_timestamp w = None
  /\ (exists s',
        run Demo.net_up 5
            [CallAddAlarm "A1" true None; CallPublish; Inbound Demo.switch_on] s
        = Some s'
        /\ request_timestamp s' = Returned None s')
  /\ exclusive_predicates d
  /\ is_keep_alive_response d Demo.pong = true
  /\ exists s1 s2,
       _on_inbound_message Demo.net_up Demo.pong s = Returned tt s1
       /\ request_timestamp s1 = Returned (Some 1530000000000) s1
       /\ _on_inbound_message Demo.net_up later s1 = Returned tt s2
       /\ request_timestamp s2 = Returned (Some 1530000060000) s2.
Proof.
  intros w s d later.
  destruct (@last_platform_timestamp_lifecycle
              Demo.App Demo.factory Demo.deserializer Demo.net_up)
    as [Hinit [Hstep [Hrun [_ [Hka Hreq]]]]].
  split.
  { apply (Hinit Demo.thermostat DEFAULT_HOST DEFAULT_PORT
                 (Some Demo.on_actuation) (Some Demo.actuator_status)
                 (Some Demo.on_configuration) (Some Demo.configuration)
                 100 true w).
    reflexivity. }
  split.
  { eexists. split; [reflexivity|].
    eapply (Hrun 5%nat
                 [CallAddAlarm "A1" true None; CallPublish;
                  Inbound Demo.switch_on] s);
      reflexivity. }
  split; [apply demo_codec_exclusive|].
  split; [reflexivity|].
  destruct (Hka Demo.pong s) as [s1 [Hrun1 [_ [Hreq1 [Hs1 _]]]]];
    [apply demo_codec_exclusive | reflexivity |].
  destruct (Hka later s1) as [s2 [Hrun2 [_ [Hreq2 _]]]];
    [rewrite Hs1; apply demo_codec_exclusive | rewrite Hs1; reflexivity |].
  exists s1, s2. split; [exact Hrun1|]. split; [exact Hreq1|].
  split; [exact Hrun2|].
  rewrite Hs1 in Hreq2. exact Hreq2.
Defined.

(** The demo connector with the broker unreachable: the actuator status
    goes into the buffer; with the broker up, the configuration goes out
    and the buffer stays empty. *)
Lemma side_effect_publishers_buffer_iff_publish_fails_witness :
  let s := Demo.start (Demo.the (Demo.full_wolk 100 true)) in
  (exists s',
      publish_actuator_status Demo.net_down "SW" s = Returned tt s'
      /\ trace s' = [EvActuatorStatusProvider "SW";
                     EvPublish (mkMessage "actuators/status/dev/SW" "READY") false]
      /\ items_of s' = [mkMessage "actuators/status/dev/SW" "READY"])
  /\ (exists s',
         publish_configuration Demo.net_up s = Returned tt s'
         /\ trace s' = [EvConfigurationProvider;
                        EvPublish (mkMessage "configurations/current/dev" "C") true]
         /\ items_of s' = []).
Proof.
  intros s. split.
  - destruct (@side_effect_publishers_buffer_iff_publish_fails
                Demo.App Demo.net_down) as [H _].
    destruct (H "SW" s Demo.actuator_status ACTUATOR_STATE_READY
                (VBool false) (VBool false))
      as [s' [Hrun [Htr [_ [_ Hroom]]]]]; [reflexivity | reflexivity |].
    exists s'. split; [exact Hrun|]. split; [exact Htr|].
    apply Hroom; reflexivity.
  - destruct (@side_effect_publishers_buffer_iff_publish_fails
                Demo.App Demo.net_up) as [_ H].
    destruct (H s Demo.on_configuration Demo.configuration
                [("interval", VBool false)] (VBool false))
      as [s' [Hrun [Htr [_ [Hsame _]]]]];
      [reflexivity | reflexivity | reflexivity |].
    exists s'. split; [exact Hrun|]. split; [exact Htr|].
    apply Hsame. reflexivity.
Defined.

(** A connector given a configuration handler and no provider:
    [publish_configuration()] raises; one given neither returns at once;
    one given both publishes the provider's configuration, into the buffer
    when the broker is unreachable. *)
Lemma publish_configuration_guard_is_handler_only_witness :
  let half := Demo.start (Demo.the (Demo.handler_only_wolk 100 true)) in
  let bare := Demo.start (Demo.the (Demo.bare_wolk 100 true)) in
  let full := Demo.start (Demo.the (Demo.full_wolk 100 true)) in
  let current := mkMessage "configurations/current/dev" "C" in
  Demo.handler_only_wolk 100 true = Ok (self half)
  /\ publish_configuration Demo.net_up half = Raised TypeError half
  /\ publish_configuration Demo.net_up bare = Returned tt bare
  /\ (exists s',
        publish_configuration Demo.net_up full = Returned tt s'
        /\ trace s' = [EvConfigurationProvider; EvPublish current true]
        /\ items_of s' = [])
  /\ (exists s',
        publish_configuration Demo.net_down full = Returned tt s'
        /\ trace s' = [EvConfigurationProvider; EvPublish current false]
        /\ items_of s' = [current]).
Proof.
  intros half bare full current. split; [reflexivity|]. split; [|split; [|split]].
  - destruct (publish_configuration_guard_is_handler_only Demo.net_up half)
      as [_ [_ [_ [H _]]]].
    apply H; [discriminate | reflexivity].
  - destruct (publish_configuration_guard_is_handler_only Demo.net_up bare)
      as [_ [_ [H _]]].
    apply H. reflexivity.
  - destruct (publish_configuration_guard_is_handler_only Demo.net_up full)
      as [_ [_ [_ [_ [_ [_ [H _]]]]]]].
    destruct (H Demo.configuration [("interval", VBool false)] (VBool false))
      as [s' [Hrun [Htr [_ [_ Hq]]]]];
      [discriminate | reflexivity | reflexivity |].
    exists s'. split; [exact Hrun|]. split; [exact Htr|].
    unfold items_of. rewrite Hq. reflexivity.
  - destruct (publish_configuration_guard_is_handler_only Demo.net_down full)
      as [_ [_ [_ [_ [_ [_ [H _]]]]]]].
    destruct (H Demo.configuration [("interval", VBool false)] (VBool false))
      as [s' [Hrun [Htr [_ [_ Hq]]]]];
      [discriminate | reflexivity | reflexivity |].
    exists s'. split; [exact Hrun|]. split; [exact Htr|].
    unfold items_of. rewrite Hq. reflexivity.
Defined.

(* ================================================================= *)
(** ** More on the drain loop: any network *)

Section DrainAnyNetwork.

Context {App : Type}.
Variable net : Network.

(** Whatever the network does, the loop leaves through its one [break]:
    when [publish()] returns it returns normally, the buffer is empty, the
    device application is untouched, nothing but publish calls were made,
    and the accepted ones are the buffered messages, each once, oldest
    first; a refused message was offered again until accepted. *)
Theorem publish_returns_only_when_drained (fuel : nat) :
  forall (s : State App) (o : Outcome App unit),
    publish net fuel s = Some o ->
    exists s' l,
      o = Returned tt s'
      /\ items_of s' = []
      /\ app s' = app s
      /\ trace s' = trace s ++ l
      /\ delivered l = items_of s
      /\ List.length (attempts l) = List.length l
      /\ List.length l = (List.length (items_of s) + refusals l)%nat.
Proof.
  induction fuel as [|fuel IH]; intros s o Hrun; [discriminate|].
  destruct (items_of s) as [|m rest] eqn:Hq.
  - rewrite publish_empty in Hrun by assumption. injection Hrun as <-.
    exists s, []. rewrite app_nil_r. repeat split; assumption.
  - destruct (net_publish net (trace s) m) eqn:Hok.
    + rewrite (publish_success net fuel s Hq Hok) in Hrun.
      destruct (IH _ _ Hrun) as [s' [l [Ho [Hempty [Happ [Htr [Hd [Ha Hn]]]]]]]].
      exists s', (EvPublish m true :: l). repeat split; try assumption.
      * rewrite Htr. simpl. rewrite <- app_assoc. reflexivity.
      * simpl. rewrite Hd. reflexivity.
      * simpl. rewrite Ha. reflexivity.
      * simpl. rewrite Hn. reflexivity.
    + rewrite (publish_failure net fuel s Hq Hok) in Hrun.
      destruct (IH _ _ Hrun) as [s' [l [Ho [Hempty [Happ [Htr [Hd [Ha Hn]]]]]]]].
      exists s', (EvPublish m false :: l). repeat split; try assumption.
      * rewrite Htr. simpl. rewrite <- app_assoc. reflexivity.
      * simpl. rewrite Hd. unfold items_of in *. simpl. exact Hq.
      * simpl. rewrite Ha. reflexivity.
      * unfold refusals in *. simpl. rewrite Hn.
        unfold items_of in *. simpl. rewrite Hq. simpl. lia.
Qed.

(** If the network refuses at most [k] more offers, [publish()] returns:
    one iteration per buffered message, one per refusal, one to find the
    buffer empty. *)
Theorem publish_returns_when_refusals_bounded (fuel : nat) :
  forall (s : State App) (k : nat),
    (forall h m, (k <= refusals h)%nat ->
                 net_publish net (trace s ++ h) m = true) ->
    (List.length (items_of s) + k < fuel)%nat ->
    exists s', publish net fuel s = Some (Returned tt s')
               /\ items_of s' = [].
Proof.
  induction fuel as [|fuel IH]; intros s k Hnet Hfuel; [lia|].
  destruct (items_of s) as [|m rest] eqn:Hq.
  - exists s. split; [apply publish_empty; assumption | assumption].
  - destruct (net_publish net (trace s) m) eqn:Hok.
    + rewrite (publish_success net fuel s Hq Hok).
      apply (IH (after_success m rest s) k).
      * intros h m' Hk. simpl. rewrite <- app_assoc. apply Hnet.
        unfold refusals in *. simpl. exact Hk.
      * unfold items_of. simpl. simpl in Hfuel. lia.
    + rewrite (publish_failure net fuel s Hq Hok).
      destruct k as [|k].
      { specialize (Hnet [] m). rewrite app_nil_r in Hnet.
        rewrite Hnet in Hok; [discriminate | unfold refusals; simpl; lia]. }
      apply (IH (after_failure m s) k).
      * intros h m' Hk. simpl. rewrite <- app_assoc. apply Hnet.
        unfold refusals in *. simpl. lia.
      * unfold items_of in *. simpl. rewrite Hq. simpl in *. lia.
Qed.

End DrainAnyNetwork.

(* ================================================================= *)
(** ** Storing data, then draining *)

Section StoreThenDrain.

Context {App : Type}.
Variable net : Network.

Lemma run_app (fuel : nat) (cs cs' : list Call) :
  forall s : State App,
    run net fuel (cs ++ cs') s
    = match run net fuel cs s with
      | Some s' => run net fuel cs' s'
      | None => None
      end.
Proof.
  induction cs as [|c cs IH]; intros s; simpl; [reflexivity|].
  destruct (exec net fuel c s); [apply IH | reflexivity].
Qed.

(** One storing call with room in the buffer. *)
Lemma add_with_room (fuel : nat) (c : Call) (s : State App) :
  is_add c = true ->
  Z.of_nat (List.length (items_of s)) < maxsize_of s ->
  exists s',
    exec net fuel c s = Some s'
    /\ items_of s' = items_of s ++ stored_by (message_factory (self s)) c
    /\ maxsize_of s' = maxsize_of s
    /\ message_factory (self s') = message_factory (self s)
    /\ trace s' = trace s
    /\ app s' = app s.
Proof.
  unfold items_of, maxsize_of. intros Hadd Hroom.
  apply Z.ltb_lt in Hroom.
  destruct c; try discriminate; simpl; unfold_methods; simpl;
    rewrite Hroom; simpl; eexists; repeat split.
Qed.

Lemma adds_with_room (fuel : nat) (cs : list Call) :
  forall s : State App,
    forallb is_add cs = true ->
    Z.of_nat (List.length (items_of s) + List.length cs) <= maxsize_of s ->
    exists s',
      run net fuel cs s = Some s'
      /\ items_of s'
         = items_of s ++ flat_map (stored_by (message_factory (self s))) cs
      /\ trace s' = trace s
      /\ app s' = app s.
Proof.
  induction cs as [|c cs IH]; intros s Hadds Hroom; simpl in *.
  - exists s. rewrite app_nil_r. repeat split.
  - apply andb_prop in Hadds. destruct Hadds as [Hadd Hadds].
    destruct (add_with_room fuel c s Hadd) as [s1 [Hexec [Hq [Hmax [Hf [Htr Happ]]]]]];
      [lia|].
    rewrite Hexec.
    assert (Hlen : List.length (stored_by (message_factory (self s)) c) = 1%nat).
    { destruct c; try discriminate; reflexivity. }
    destruct (IH s1 Hadds) as [s' [Hrun [Hq' [Htr' Happ']]]].
    { rewrite Hq, Hmax, length_app, Hlen. lia. }
    exists s'. split; [exact Hrun|].
    rewrite Hq', Hq, Hf, Htr', Happ', <- app_assoc. repeat split; assumption.
Qed.

(** Readings and alarms stored while the buffer has room for them, then
    [publish()] against a transport that accepts every call: nothing is
    sent while storing; the drain returns, hands over what was buffered
    before followed by the encoded data in the order they were added, and
    leaves the buffer empty. *)
Theorem stored_data_drained_in_order (cs : list Call) :
  forall (s : State App) (fuel : nat),
    forallb is_add cs = true ->
    Z.of_nat (List.length (items_of s) + List.length cs) <= maxsize_of s ->
    (forall h m, net_publish net h m = true) ->
    (List.length (items_of s) + List.length cs < fuel)%nat ->
    exists s1 s2,
      run net fuel cs s = Some s1
      /\ trace s1 = trace s
      /\ run net fuel (cs ++ [CallPublish]) s = Some s2
      /\ items_of s2 = []
      /\ trace s2
         = trace s
           ++ map (fun m => EvPublish m true)
                  (items_of s
                   ++ flat_map (stored_by (message_factory (self s))) cs).
Proof.
  intros s fuel Hadds Hroom Hnet Hfuel.
  destruct (adds_with_room fuel cs s Hadds Hroom) as [s1 [Hrun [Hq [Htr _]]]].
  exists s1, (after_drain s1). split; [exact Hrun|]. split; [exact Htr|].
  rewrite run_app, Hrun. simpl.
  rewrite (@drain_all App net (items_of s1) s1 fuel); auto.
  - simpl. repeat split. rewrite Htr, Hq. reflexivity.
  - assert (Hlen : forall l : list Call,
               forallb is_add l = true ->
               List.length (flat_map (stored_by (message_factory (self s))) l)
               = List.length l).
    { induction l as [|c l IHl]; simpl; [reflexivity|]. intros H.
      apply andb_prop in H. destruct H as [Hc Hl].
      rewrite length_app, (IHl Hl).
      destruct c; try discriminate; reflexivity. }
    rewrite Hq, length_app, (Hlen cs Hadds). exact Hfuel.
Qed.

End StoreThenDrain.

(* ================================================================= *)
(** ** More on the dispatcher *)

Section DispatchMore.

Context {App : Type}.
Variable net : Network.

(** An inbound message that the configuration predicate accepts and the
    actuation predicate does not: with a handler and a provider registered
    (and returning), the handler is called once with the parsed
    configuration, then the provider is asked for the current
    configuration, and that one, not the command, is encoded and handed to
    the transport once, going into the buffer only if refused; with either
    of the two missing, nothing happens at all. *)
Theorem configuration_command_handled_then_configuration_published :
  forall (m : Message) (s : State App),
    let d := message_deserializer (self s) in
    let command := parse_configuration_command d m in
    is_actuation_command d m = false ->
    is_configuration_command d m = true ->
    (forall h p app1 current app2,
        configuration_handler (self s) = Some h ->
        configuration_provider (self s) = Some p ->
        h command (app s) = Some app1 ->
        p app1 = Some (current, app2) ->
        let reply := make_from_configuration (message_factory (self s)) current in
        let ok :=
          net_publish net
            (trace s ++ [EvConfigurationHandler command; EvConfigurationProvider])
            reply in
        exists s',
          _on_inbound_message net m s = Returned tt s'
          /\ trace s' = trace s ++ [EvConfigurationHandler command;
                                    EvConfigurationProvider;
                                    EvPublish reply ok]
          /\ app s' = app2
          /\ message_queue (self s')
             = (if ok then message_queue (self s)
                else snd (ZerynthMessageQueue.put reply (message_queue (self s)))))
    /\ (configuration_handler (self s) = None
        \/ configuration_provider (self s) = None ->
        _on_inbound_message net m s = Returned tt s).
Proof.
  intros m s d command Hact Hconf. split.
  - intros h p app1 current app2 Hh Hp Hcall Hcurrent reply ok.
    subst ok reply command d. unfold_methods. simpl.
    rewrite Hact, Hconf, Hh, Hp. simpl. rewrite Hcall. simpl.
    rewrite Hh. simpl. rewrite Hp. simpl. rewrite Hcurrent. simpl.
    rewrite <- !app_assoc. simpl.
    destruct (net_publish net _ _); simpl.
    + eexists. split; [reflexivity|]. simpl.
      rewrite <- ?app_assoc. repeat split.
    + destruct (Z.of_nat _ <? _); simpl;
        (eexists; split; [reflexivity|]); simpl;
        rewrite <- ?app_assoc; repeat split.
  - intros Habsent. subst command d. unfold_methods. simpl.
    rewrite Hact, Hconf.
    destruct Habsent as [H|H]; rewrite H;
      [destruct (configuration_provider (self s))|]; reflexivity.
Qed.

(** The dispatcher has no fault of its own: an exception that leaves
    [_on_inbound_message] was raised inside a device callback.  In
    particular the [TypeError] of [publish_configuration] cannot come out
    of it, because the configuration branch checks the provider first. *)
Theorem dispatcher_raises_only_from_callbacks :
  forall (m : Message) (s s' : State App) (e : Exn),
    _on_inbound_message net m s = Raised e s' ->
    e = CallbackRaised
    /\ exists l, trace s' = trace s ++ l /\ callback_events l = l /\ l <> [].
Proof.
  intros m s s' e. unfold_methods. simpl.
  repeat (branch; simpl in * ); intros Hrun; try discriminate;
    injection Hrun as <- <-; (split; [reflexivity|]); simpl;
    rewrite <- ?app_assoc; simpl;
    eexists; (split; [reflexivity|]); split; (reflexivity || discriminate).
Qed.

(** One inbound message causes at most one publish call, and the buffer
    changes only in that it takes the response the transport refused. *)
Theorem dispatch_at_most_one_response :
  forall (m : Message) (s : State App),
    let s' := final_state (_on_inbound_message net m s) in
    exists l,
      trace s' = trace s ++ l
      /\ (List.length (attempts l) <= 1)%nat
      /\ (message_queue (self s') = message_queue (self s)
          \/ exists reply,
               attempts l = [reply] /\ delivered l = []
               /\ message_queue (self s')
                  = snd (ZerynthMessageQueue.put reply (message_queue (self s)))).
Proof.
  intros m s. unfold_methods. simpl.
  repeat (branch; simpl in * );
    repeat match goal with
           | H : negb _ = true |- _ => apply negb_true_iff in H; rewrite ?H
           | H : negb _ = false |- _ => apply negb_false_iff in H; rewrite ?H
           end;
    rewrite <- ?app_assoc; simpl;
    try (exists []; rewrite app_nil_r; simpl; repeat split; auto; fail);
    (eexists; split; [reflexivity|]); simpl; (split; [lia|]);
    try (left; reflexivity);
    right; eexists; (split; [reflexivity|]); (split; [reflexivity|]);
    unfold ZerynthMessageQueue.put;
    try match goal with H : (_ <? _) = _ |- _ => rewrite H end; reflexivity.
Qed.

(** A callback that raises ends the branch there and then: after a
    raising actuation handler no status is queried or published; after a
    raising status provider the handler's effect on the device stays but
    nothing is published; after a raising configuration handler no
    configuration is queried or published.  The buffer is as it was. *)
Theorem callback_exception_ends_the_branch :
  forall (m : Message) (s : State App),
    let d := message_deserializer (self s) in
    let actuation := parse_actuator_command d m in
    let command := parse_configuration_command d m in
    (forall h p,
        is_actuation_command d m = true ->
        actuation_handler (self s) = Some h ->
        actuator_status_provider (self s) = Some p ->
        h (ac_reference actuation) (ac_value actuation) (app s) = None ->
        _on_inbound_message net m s
        = Raised CallbackRaised
            (mkState (self s) (app s)
               (trace s ++ [EvActuationHandler (ac_reference actuation)
                                               (ac_value actuation)])))
    /\ (forall h p app1,
        is_actuation_command d m = true ->
        actuation_handler (self s) = Some h ->
        actuator_status_provider (self s) = Some p ->
        h (ac_reference actuation) (ac_value actuation) (app s) = Some app1 ->
        p (ac_reference actuation) app1 = None ->
        _on_inbound_message net m s
        = Raised CallbackRaised
            (mkState (self s) app1
               (trace s ++ [EvActuationHandler (ac_reference actuation)
                                               (ac_value actuation);
                            EvActuatorStatusProvider (ac_reference actuation)])))
    /\ (forall h p,
        is_actuation_command d m = false ->
        is_configuration_command d m = true ->
        configuration_handler (self s) = Some h ->
        configuration_provider (self s) = Some p ->
        h command (app s) = None ->
        _on_inbound_message net m s
        = Raised CallbackRaised
            (mkState (self s) (app s)
               (trace s ++ [EvConfigurationHandler command]))).
Proof.
  intros m s d actuation command. subst command actuation d. repeat split.
  - intros h p Hact Hh Hp Hraise. unfold_methods. simpl.
    rewrite Hact, Hh, Hp. simpl. rewrite Hraise. reflexivity.
  - intros h p app1 Hact Hh Hp Hcall Hraise. unfold_methods. simpl.
    rewrite Hact, Hh, Hp. simpl. rewrite Hcall. simpl. rewrite Hp. simpl.
    rewrite Hraise. rewrite <- app_assoc. reflexivity.
  - intros h p Hact Hconf Hh Hp Hraise. unfold_methods. simpl.
    rewrite Hact, Hconf, Hh, Hp. simpl. rewrite Hraise. reflexivity.
Qed.

(** [publish_actuator_status] checks the very callback it calls: it is a
    silent no-op exactly when no status provider is registered, and the
    only exception it lets out is one raised by the provider. *)
Theorem publish_actuator_status_guard_matches_call :
  forall (reference : string) (s : State App),
    ((exists s', publish_actuator_status net reference s = Returned tt s'
                 /\ trace s' = trace s)
     <-> actuator_status_provider (self s) = None)
    /\ (actuator_status_provider (self s) = None ->
        publish_actuator_status net reference s = Returned tt s)
    /\ (forall e s', publish_actuator_status net reference s = Raised e s' ->
                     e = CallbackRaised
                     /\ exists p, actuator_status_provider (self s) = Some p
                                  /\ p reference (app s) = None).
Proof.
  intros reference s.
  assert (Hnone : actuator_status_provider (self s) = None ->
                  publish_actuator_status net reference s = Returned tt s).
  { intros H. unfold_methods. rewrite H. reflexivity. }
  repeat split.
  - intros [s' [Hrun Htr]].
    destruct (actuator_status_provider (self s)) as [p|] eqn:Hp; [|reflexivity].
    exfalso. revert Hrun. unfold_methods. simpl. rewrite Hp. simpl.
    repeat (branch; simpl in * ); intros Hrun; try discriminate;
      injection Hrun as <-; simpl in Htr;
      apply (f_equal (@List.length Event)) in Htr;
      rewrite ?length_app in Htr; simpl in Htr; lia.
  - intros H. exists s. auto.
  - exact Hnone.
  - revert H. unfold_methods. simpl.
    repeat (branch; simpl in * ); intros Hrun; try discriminate.
    injection Hrun as <- _. reflexivity.
  - revert H. unfold_methods. simpl.
    destruct (actuator_status_provider (self s)) as [p|] eqn:Hp; simpl;
      [|discriminate].
    destruct (p reference (app s)) as [[[state value] app']|] eqn:Hcall; simpl.
    + repeat (branch; simpl in * ); discriminate.
    + intros _. exists p. auto.
Qed.

End DispatchMore.

(* ================================================================= *)
(** ** Connecting, disconnecting and the keep-alive timer *)

Section Lifecycle.

Context {App : Type}.
Variable WolkAboutProtocolMessageFactory : string -> MessageFactory.
Variable WolkAboutProtocolMessageDeserializer : Device -> MessageDeserializer.
Variable net : Network.

(** [connect()] on a network that lets it through, then [disconnect()]:
    both return; with keep-alive enabled a timer of 60000 ms is created
    running by [connect] and is stopped by [disconnect], with keep-alive
    disabled whatever timer there was is left alone; the buffer, the
    timestamp and the device application are not touched. *)
Theorem connect_then_disconnect :
  forall s : State App,
    net_connect net (trace s) = true ->
    exists s1 s2,
      connect net s = Returned tt s1
      /\ disconnect s1 = Returned tt s2
      /\ cs_connected (connectivity_service (self s1)) = true
      /\ cs_connected (connectivity_service (self s2)) = false
      /\ keep_alive_service (self s1)
         = (if keep_alive_enabled (self s)
            then Some (mkTimer 60000 true) else keep_alive_service (self s))
      /\ keep_alive_service (self s2)
         = (if keep_alive_enabled (self s)
            then Some (mkTimer 60000 false) else keep_alive_service (self s))
      /\ trace s2 = trace s ++ [EvConnect true; EvDisconnect]
      /\ message_queue (self s2) = message_queue (self s)
      /\ last_platform_timestamp (self s2) = last_platform_timestamp (self s)
      /\ app s2 = app s.
Proof.
  intros s Hnet. unfold_methods. simpl. rewrite Hnet. simpl.
  destruct (keep_alive_enabled (self s)) eqn:Hka; simpl;
    rewrite ?Hka; simpl; do 2 eexists; (split; [reflexivity|]);
    simpl; rewrite ?Hka; simpl; (split; [reflexivity|]); simpl;
    rewrite <- ?app_assoc; repeat split.
Qed.

(** [disconnect()] on a connector whose timer was never created, which is
    how [__init__] leaves it: with keep-alive enabled the connectivity
    service is disconnected and then the call raises [AttributeError];
    with keep-alive disabled it returns. *)
Theorem disconnect_without_timer :
  forall s : State App,
    keep_alive_service (self s) = None ->
    let s' := mkState (set_connected false (self s)) (app s)
                      (trace s ++ [EvDisconnect]) in
    (keep_alive_enabled (self s) = true ->
     disconnect s = Raised AttributeError s')
    /\ (keep_alive_enabled (self s) = false ->
        disconnect s = Returned tt s')
    /\ (forall dev host port handler provider on_configuration configuration
               message_queue_size keep_alive,
           __init__ WolkAboutProtocolMessageFactory
                    WolkAboutProtocolMessageDeserializer
                    dev host port handler provider on_configuration
                    configuration message_queue_size keep_alive
           = Ok (self s) ->
           disconnect s = if keep_alive then Raised AttributeError s'
                          else Returned tt s').
Proof.
  intros s Hnone s'. subst s'.
  assert (Hon : keep_alive_enabled (self s) = true ->
                disconnect s
                = Raised AttributeError
                    (mkState (set_connected false (self s)) (app s)
                             (trace s ++ [EvDisconnect]))).
  { intros Hka. unfold_methods. simpl. rewrite Hka. simpl. rewrite Hnone.
    reflexivity. }
  assert (Hoff : keep_alive_enabled (self s) = false ->
                 disconnect s
                 = Returned tt
                     (mkState (set_connected false (self s)) (app s)
                              (trace s ++ [EvDisconnect]))).
  { intros Hka. unfold_methods. simpl. rewrite Hka. reflexivity. }
  repeat split; try assumption.
  intros dev host port ah asp ch cp size enabled. unfold __init__.
  destruct (_ && _); [discriminate|].
  intros H. injection H as H.
  assert (Hka : keep_alive_enabled (self s) = enabled) by (rewrite <- H; reflexivity).
  destruct enabled; [apply Hon | apply Hoff]; exact Hka.
Qed.

(** What [__init__] does in full.  It raises exactly when the device
    declares a non-empty list of actuator references and the actuation
    handler or the status provider is [None]; the configuration callbacks
    are never checked, and a device with no references ([None] or empty)
    needs no callback at all.  Otherwise the connector holds what it was
    given, an empty buffer of the given capacity, a connectivity service
    set up for the deserializer's topics and not yet connected, no timer
    and no timestamp. *)
Theorem construction_in_full :
  forall (dev : Device) (host : string) (port : Z)
         (handler : option (@ActuationHandler App))
         (provider : option (@ActuatorStatusProvider App))
         on_configuration configuration
         (message_queue_size : Z) (keep_alive : bool),
    let construct :=
      __init__ WolkAboutProtocolMessageFactory
               WolkAboutProtocolMessageDeserializer
               dev host port handler provider on_configuration configuration
               message_queue_size keep_alive in
    (construct = Err InterfaceNotProvided
     <-> truthy_references (actuator_references dev) = true
         /\ (handler = None \/ provider = None))
    /\ (forall e, construct = Err e -> e = InterfaceNotProvided)
    /\ (actuator_references dev = None \/ actuator_references dev = Some [] ->
        exists w, construct = Ok w)
    /\ (forall w, construct = Ok w ->
          device w = dev
          /\ message_factory w = WolkAboutProtocolMessageFactory (key dev)
          /\ message_deserializer w = WolkAboutProtocolMessageDeserializer dev
          /\ message_queue w = ZerynthMessageQueue.create message_queue_size
          /\ connectivity_service w
             = mkConnectivityService
                 dev (get_inbound_topics (WolkAboutProtocolMessageDeserializer dev))
                 host port true false
          /\ actuation_handler w = handler
          /\ actuator_status_provider w = provider
          /\ configuration_handler w = on_configuration
          /\ configuration_provider w = configuration
          /\ keep_alive_enabled w = keep_alive
          /\ keep_alive_service w = None
          /\ last_platform_timestamp w = None).
Proof.
  intros dev host port ah asp ch cp size enabled construct.
  subst construct. unfold __init__.
  destruct (truthy_references (actuator_references dev)) eqn:Hrefs; simpl.
  - destruct ah as [h|], asp as [p|]; simpl; repeat split;
      try discriminate; try reflexivity; auto;
      try (intros [_ [H|H]]; discriminate);
      try (intros e H; injection H as <-; reflexivity);
      try (intros [H|H]; rewrite H in Hrefs; discriminate);
      try (intros w H; injection H as <-; reflexivity);
      try (intros w H; discriminate);
      match goal with H : Ok _ = Ok _ |- _ => injection H as <-; reflexivity end.
  - repeat split; try discriminate; try (intros [H _]; discriminate);
      try (intros _; eexists; reflexivity);
      try (intros w H; injection H as <-; reflexivity);
      match goal with H : Ok _ = Ok _ |- _ => injection H as <-; reflexivity end.
Qed.

End Lifecycle.

(* ================================================================= *)
(** ** What no call changes, and what the keep-alive tick leaves alone *)

Section Frames.

Context {App : Type}.
Variable net : Network.

Lemma same_configuration_refl (w : Wolk App) : same_configuration w w.
Proof. unfold same_configuration. repeat split. Qed.

Lemma same_configuration_trans (w1 w2 w3 : Wolk App) :
  same_configuration w1 w2 -> same_configuration w2 w3 ->
  same_configuration w1 w3.
Proof.
  unfold same_configuration.
  intros [? [? [? [? [? [? [? [? ?]]]]]]]] [? [? [? [? [? [? [? [? ?]]]]]]]].
  repeat split; etransitivity; eassumption.
Qed.

Lemma publish_keeps_configuration (fuel : nat) :
  forall (s : State App) o,
    publish net fuel s = Some o ->
    same_configuration (self s) (self (final_state o)).
Proof.
  induction fuel as [|fuel IH]; intros s o Hrun; [discriminate|].
  destruct (items_of s) as [|m rest] eqn:Hq.
  - rewrite publish_empty in Hrun by assumption.
    injection Hrun as <-. apply same_configuration_refl.
  - destruct (net_publish net (trace s) m) eqn:Hok.
    + rewrite (publish_success net fuel s Hq Hok) in Hrun.
      apply IH in Hrun.
      apply same_configuration_trans with (2 := Hrun).
      unfold same_configuration. repeat split.
    + rewrite (publish_failure net fuel s Hq Hok) in Hrun.
      apply IH in Hrun. exact Hrun.
Qed.

Lemma exec_keeps_configuration (fuel : nat) (c : Call) (s s' : State App) :
  exec net fuel c s = Some s' -> same_configuration (self s) (self s').
Proof.
  intros Hexec. destruct c; simpl in Hexec;
    try (injection Hexec as <-);
    try (unfold same_configuration; unfold_methods; simpl;
         repeat (branch; simpl in * ); repeat split; congruence).
  destruct (publish net fuel s) as [o|] eqn:Hrun; simpl in Hexec;
    [|discriminate].
  injection Hexec as <-.
  apply (publish_keeps_configuration _ _ Hrun).
Qed.

(** No sequence of calls, whatever the network and the callbacks do and
    whether the calls return or raise, changes what [__init__] fixed: the
    device, the two codecs, the four callbacks, the keep-alive flag and the
    capacity of the buffer. *)
Theorem calls_keep_configuration (fuel : nat) (cs : list Call) :
  forall s s' : State App,
    run net fuel cs s = Some s' -> same_configuration (self s) (self s').
Proof.
  induction cs as [|c cs IH]; intros s s' Hrun; simpl in Hrun.
  - injection Hrun as <-. apply same_configuration_refl.
  - destruct (exec net fuel c s) as [s1|] eqn:Hexec; [|discriminate].
    apply same_configuration_trans with (self s1).
    + apply (exec_keeps_configuration _ _ _ Hexec).
    + apply IH. exact Hrun.
Qed.

(** The keep-alive ping is fire and forget.  [n] ticks of the timer make
    [n] publish calls, each with the keep-alive message, and whatever the
    transport answers nothing is buffered for later: the connector and the
    device application are exactly as before. *)
Theorem keep_alive_ticks_are_never_buffered (fuel n : nat) :
  forall s : State App,
    exists s' l,
      run net fuel (repeat KeepAliveTick n) s = Some s'
      /\ self s' = self s
      /\ app s' = app s
      /\ trace s' = trace s ++ l
      /\ attempts l
         = repeat (make_from_keep_alive_message (message_factory (self s))) n
      /\ List.length l = (2 * n)%nat.
Proof.
  induction n as [|n IH]; intros s; simpl.
  - exists s, []. rewrite app_nil_r. repeat split.
  - unfold _send_keep_alive, bind, log, attr, connectivity_publish, ret. simpl.
    match goal with
    | |- context [run net fuel _ ?s1] =>
        destruct (IH s1) as [s' [l [Hrun [Hself [Happ [Htr [Ha Hlen]]]]]]]
    end.
    simpl in *.
    eexists s', (_ :: _ :: l). split; [exact Hrun|].
    split; [exact Hself|]. split; [exact Happ|].
    split; [rewrite Htr, <- !app_assoc; reflexivity|].
    split; [simpl; rewrite Ha; reflexivity | simpl; lia].
Qed.

End Frames.

(* ================================================================= *)
(** ** A refused response and the next drain *)

Section RefusedResponse.

Context {App : Type}.
Variable net : Network.

(** An actuator status that the transport refuses, with room in the
    buffer, is queued behind what is already waiting; if the transport
    accepts from then on, the next [publish()] returns having handed over
    the earlier messages first and the status last, and the buffer is
    empty. *)
Theorem refused_status_goes_out_with_next_drain :
  forall (reference : string) (s : State App) p state value app' (fuel : nat),
    actuator_status_provider (self s) = Some p ->
    p reference (app s) = Some ((state, value), app') ->
    let message :=
      make_from_actuator_status (message_factory (self s))
                                (mkActuatorStatus reference state value) in
    let first_try := [EvActuatorStatusProvider reference;
                      EvPublish message false] in
    net_publish net (trace s ++ [EvActuatorStatusProvider reference]) message
    = false ->
    Z.of_nat (List.length (items_of s)) < maxsize_of s ->
    (forall h m, net_publish net (trace s ++ first_try ++ h) m = true) ->
    (List.length (items_of s) + 1 < fuel)%nat ->
    exists s1 s2,
      publish_actuator_status net reference s = Returned tt s1
      /\ items_of s1 = items_of s ++ [message]
      /\ publish net fuel s1 = Some (Returned tt s2)
      /\ items_of s2 = []
      /\ trace s2 = trace s ++ first_try
                    ++ map (fun m => EvPublish m true) (items_of s ++ [message]).
Proof.
  intros reference s p state value app' fuel Hp Hcall message first_try
         Hrefused Hroom Hnet Hfuel.
  assert (H1 : exists s1,
             publish_actuator_status net reference s = Returned tt s1
             /\ items_of s1 = items_of s ++ [message]
             /\ trace s1 = trace s ++ first_try).
  { subst first_try message. unfold items_of, maxsize_of in *.
    apply Z.ltb_lt in Hroom.
    unfold_methods. simpl. rewrite Hp. simpl. rewrite Hcall. simpl.
    rewrite Hrefused. simpl. rewrite Hroom. simpl.
    eexists. split; [reflexivity|]. simpl.
    rewrite <- app_assoc. split; reflexivity. }
  destruct H1 as [s1 [Hrun [Hq Htr]]].
  exists s1, (after_drain s1). split; [exact Hrun|]. split; [exact Hq|].
  split.
  - apply (@drain_all App net (items_of s1) s1 fuel).
    + reflexivity.
    + intros h m. rewrite Htr, <- app_assoc. apply Hnet.
    + rewrite Hq, length_app. simpl. exact Hfuel.
  - split; [reflexivity|]. simpl. rewrite Htr, Hq, <- app_assoc. reflexivity.
Qed.

End RefusedResponse.

(* ================================================================= *)
(** ** These theorems at work on the demo device *)

(** Two messages, a broker that refuses the first offer only. *)
Lemma publish_returns_only_when_drained_witness :
  let s := Demo.holding [Demo.m1; Demo.m2] in
  exists s' l,
    publish Demo.net_first_publish_fails 4 s = Some (Returned tt s')
    /\ items_of s' = []
    /\ trace s' = trace s ++ l
    /\ delivered l = [Demo.m1; Demo.m2]
    /\ List.length l = 3%nat.
Proof.
  intros s.
  destruct (@publish_returns_only_when_drained
              Demo.App Demo.net_first_publish_fails 4 s
              (Returned tt
                 (mkState (set_message_queue
                             (ZerynthMessageQueue.mk DEFAULT_MESSAGE_QUEUE_SIZE [])
                             (self s))
                          (app s)
                          [EvPublish Demo.m1 false; EvPublish Demo.m1 true;
                           EvPublish Demo.m2 true])))
    as [s' [l [Ho [Hq [_ [Htr [Hd [_ Hn]]]]]]]]; [reflexivity|].
  injection Ho as Ho. exists s', l. rewrite <- Ho at 1.
  split; [reflexivity|]. split; [exact Hq|]. split; [exact Htr|].
  split; [exact Hd|].
  rewrite Hn. subst s'. simpl in Htr. subst l. reflexivity.
Defined.

(** Two messages, a broker that refuses twice: five iterations do. *)
Lemma publish_returns_when_refusals_bounded_witness :
  let s := Demo.holding [Demo.m1; Demo.m2] in
  (forall h m, (2 <= refusals h)%nat ->
               net_publish (Demo.net_refusing 2) (trace s ++ h) m = true)
  /\ exists s', publish (Demo.net_refusing 2) 5 s = Some (Returned tt s')
                /\ items_of s' = [].
Proof.
  intros s.
  assert (H : forall h m, (2 <= refusals h)%nat ->
                net_publish (Demo.net_refusing 2) (trace s ++ h) m = true).
  { intros h m Hk. change ((2 <=? refusals h)%nat = true).
    apply Nat.leb_le. exact Hk. }
  split; [exact H|].
  apply (@publish_returns_when_refusals_bounded
           Demo.App (Demo.net_refusing 2) 5 s 2 H).
  simpl. lia.
Defined.

(** A reading and an alarm, then a drain. *)
Lemma stored_data_drained_in_order_witness :
  let s := Demo.start (Demo.the (Demo.bare_wolk 100 true)) in
  let cs := [CallAddSensorReading "T1" (VInt 21) (Some 1000);
             CallAddAlarm "A1" true None] in
  exists s2,
    run Demo.net_up 3 (cs ++ [CallPublish]) s = Some s2
    /\ items_of s2 = []
    /\ trace s2 = [EvPublish Demo.m1 true; EvPublish Demo.m2 true].
Proof.
  intros s cs.
  destruct (@stored_data_drained_in_order Demo.App Demo.net_up cs s 3)
    as [s1 [s2 [_ [_ [Hrun [Hq Htr]]]]]];
    [ reflexivity | apply Z.leb_le; reflexivity | reflexivity
    | apply Nat.ltb_lt; reflexivity | ].
  exists s2. split; [exact Hrun|]. split; [exact Hq | exact Htr].
Defined.

(** A configuration command, with callbacks and without. *)
Lemma configuration_command_handled_then_configuration_published_witness :
  let s := Demo.start (Demo.the (Demo.full_wolk 100 true)) in
  let bare := Demo.start (Demo.the (Demo.bare_wolk 100 true)) in
  (exists s',
      _on_inbound_message Demo.net_up Demo.reconfigure s = Returned tt s'
      /\ trace s' = [EvConfigurationHandler [("interval", VBool true)];
                     EvConfigurationProvider;
                     EvPublish (mkMessage "configurations/current/dev" "C") true])
  /\ _on_inbound_message Demo.net_up Demo.reconfigure bare = Returned tt bare.
Proof.
  intros s bare. split.
  - pose proof (@configuration_command_handled_then_configuration_published
                  Demo.App Demo.net_up Demo.reconfigure s) as H.
    cbv zeta in H. destruct H as [H _]; [reflexivity | reflexivity |].
    destruct (H Demo.on_configuration Demo.configuration (VBool false)
                [("interval", VBool false)] (VBool false))
      as [s' [Hrun [Htr _]]]; try reflexivity.
    exists s'. split; [exact Hrun | exact Htr].
  - pose proof (@configuration_command_handled_then_configuration_published
                  Demo.App Demo.net_up Demo.reconfigure bare) as H.
    cbv zeta in H. destruct H as [_ H]; [reflexivity | reflexivity |].
    apply H. left. reflexivity.
Defined.

(** An actuation command to a connector whose handler raises. *)
Lemma dispatcher_raises_only_from_callbacks_witness :
  let s := Demo.start (Demo.the (Demo.faulty_wolk 100 true)) in
  let s' := mkState (self s) (app s) [EvActuationHandler "SW" (VBool true)] in
  _on_inbound_message Demo.net_up Demo.switch_on s = Raised CallbackRaised s'
  /\ exists l, trace s' = trace s ++ l /\ callback_events l = l /\ l <> [].
Proof.
  intros s s'. split; [reflexivity|].
  destruct (@dispatcher_raises_only_from_callbacks
              Demo.App Demo.net_up Demo.switch_on s s' CallbackRaised)
    as [_ H]; [reflexivity | exact H].
Defined.

(** Raising handlers and a raising status provider. *)
Lemma callback_exception_ends_the_branch_witness :
  let s := Demo.start (Demo.the (Demo.faulty_wolk 100 true)) in
  let t := Demo.start (Demo.the (Demo.status_faulty_wolk 100 true)) in
  _on_inbound_message Demo.net_up Demo.switch_on s
  = Raised CallbackRaised
      (mkState (self s) (app s) [EvActuationHandler "SW" (VBool true)])
  /\ _on_inbound_message Demo.net_up Demo.switch_on t
     = Raised CallbackRaised
         (mkState (self t) (VBool true)
                  [EvActuationHandler "SW" (VBool true);
                   EvActuatorStatusProvider "SW"])
  /\ _on_inbound_message Demo.net_up Demo.reconfigure s
     = Raised CallbackRaised
         (mkState (self s) (app s)
                  [EvConfigurationHandler [("interval", VBool true)]]).
Proof.
  intros s t.
  pose proof (@callback_exception_ends_the_branch
                Demo.App Demo.net_up Demo.switch_on s) as [H1 _].
  pose proof (@callback_exception_ends_the_branch
                Demo.App Demo.net_up Demo.switch_on t) as [_ [H2 _]].
  pose proof (@callback_exception_ends_the_branch
                Demo.App Demo.net_up Demo.reconfigure s) as [_ [_ H3]].
  split; [|split].
  - apply (H1 Demo.failing_actuation Demo.actuator_status); reflexivity.
  - apply (H2 Demo.on_actuation Demo.failing_status (VBool true)); reflexivity.
  - apply (H3 Demo.failing_configuration_handler Demo.configuration);
      reflexivity.
Defined.

(** No provider: nothing happens.  A raising provider: its exception. *)
Lemma publish_actuator_status_guard_matches_call_witness :
  let bare := Demo.start (Demo.the (Demo.bare_wolk 100 true)) in
  let t := Demo.start (Demo.the (Demo.status_faulty_wolk 100 true)) in
  publish_actuator_status Demo.net_up "SW" bare = Returned tt bare
  /\ publish_actuator_status Demo.net_up "SW" t
     = Raised CallbackRaised
         (mkState (self t) (app t) [EvActuatorStatusProvider "SW"])
  /\ exists p, actuator_status_provider (self t) = Some p
               /\ p "SW" (app t) = None.
Proof.
  intros bare t.
  destruct (@publish_actuator_status_guard_matches_call
              Demo.App Demo.net_up "SW" bare) as [_ [Hnone _]].
  destruct (@publish_actuator_status_guard_matches_call
              Demo.App Demo.net_up "SW" t) as [_ [_ Hraise]].
  split; [apply Hnone; reflexivity|]. split; [reflexivity|].
  apply (Hraise CallbackRaised
                (mkState (self t) (app t) [EvActuatorStatusProvider "SW"])).
  reflexivity.
Defined.

(** The demo connector connects and disconnects. *)
Lemma connect_then_disconnect_witness :
  let s := Demo.start (Demo.the (Demo.full_wolk 100 true)) in
  exists s1 s2,
    connect Demo.net_up s = Returned tt s1
    /\ disconnect s1 = Returned tt s2
    /\ keep_alive_service (self s1) = Some (mkTimer 60000 true)
    /\ keep_alive_service (self s2) = Some (mkTimer 60000 false)
    /\ trace s2 = [EvConnect true; EvDisconnect].
Proof.
  intros s.
  destruct (@connect_then_disconnect Demo.App Demo.net_up s)
    as [s1 [s2 [Hc [Hd [_ [_ [Ht1 [Ht2 [Htr _]]]]]]]]]; [reflexivity|].
  exists s1, s2. repeat split; assumption.
Defined.

(** The demo connector, disconnected before it was ever connected. *)
Lemma disconnect_without_timer_witness :
  let s := Demo.start (Demo.the (Demo.full_wolk 100 true)) in
  let quiet := Demo.start (Demo.the (Demo.full_wolk 100 false)) in
  disconnect s
  = Raised AttributeError
      (mkState (set_connected false (self s)) (app s) [EvDisconnect])
  /\ disconnect quiet
     = Returned tt
         (mkState (set_connected false (self quiet)) (app quiet) [EvDisconnect]).
Proof.
  intros s quiet.
  pose proof (@disconnect_without_timer
                Demo.App Demo.factory Demo.deserializer s) as Hs.
  pose proof (@disconnect_without_timer
                Demo.App Demo.factory Demo.deserializer quiet) as Hq.
  cbv zeta in Hs, Hq.
  destruct Hs as [Hs _]; [reflexivity|].
  destruct Hq as [_ [Hq _]]; [reflexivity|].
  split; [apply Hs | apply Hq]; reflexivity.
Defined.

(** A device without actuators needs no callbacks; the thermostat does. *)
Lemma construction_in_full_witness :
  (exists w, Demo.bare_wolk 100 true = Ok w /\ keep_alive_service w = None)
  /\ __init__ Demo.factory Demo.deserializer Demo.thermostat
              DEFAULT_HOST DEFAULT_PORT
              (Some Demo.on_actuation) (@None (@ActuatorStatusProvider Demo.App))
              None None 100 true
     = Err InterfaceNotProvided.
Proof.
  split.
  - pose proof (@construction_in_full
                  Demo.App Demo.factory Demo.deserializer Demo.sensor_only
                  DEFAULT_HOST DEFAULT_PORT None None None None 100 true) as H.
    cbv zeta in H. destruct H as [_ [_ [Hok Hfields]]].
    destruct Hok as [w Hw]; [left; reflexivity|].
    exists w. split; [exact Hw|].
    destruct (Hfields w Hw) as [_ [_ [_ [_ [_ [_ [_ [_ [_ [_ [H _]]]]]]]]]]].
    exact H.
  - pose proof (@construction_in_full
                  Demo.App Demo.factory Demo.deserializer Demo.thermostat
                  DEFAULT_HOST DEFAULT_PORT (Some Demo.on_actuation) None
                  None None 100 true) as H.
    cbv zeta in H. destruct H as [[_ H] _].
    apply H. split; [reflexivity | right; reflexivity].
Defined.

(** A day in the life of the demo connector: its callbacks are the same
    at the end. *)
Lemma calls_keep_configuration_witness :
  let s := Demo.start (Demo.the (Demo.full_wolk 100 true)) in
  let cs := [CallConnect; CallAddAlarm "A1" true None; CallPublish;
             Inbound Demo.switch_on; Inbound Demo.pong; KeepAliveTick;
             CallPublishConfiguration; CallDisconnect] in
  exists s', run Demo.net_up 5 cs s = Some s'
             /\ same_configuration (self s) (self s').
Proof.
  intros s cs. eexists. split; [reflexivity|].
  apply (@calls_keep_configuration Demo.App Demo.net_up 5 cs s).
  reflexivity.
Defined.

(** The demo connector holds a reading; the broker refuses the status and
    accepts afterwards: the reading goes out first, the status after it. *)
Lemma refused_status_goes_out_with_next_drain_witness :
  let w := Demo.the (Demo.full_wolk 100 true) in
  let s := Demo.start (set_message_queue
                         (ZerynthMessageQueue.mk 100 [Demo.m1]) w) in
  let status := mkMessage "actuators/status/dev/SW" "READY" in
  exists s1 s2,
    publish_actuator_status Demo.net_first_publish_fails "SW" s = Returned tt s1
    /\ items_of s1 = [Demo.m1; status]
    /\ publish Demo.net_first_publish_fails 3 s1 = Some (Returned tt s2)
    /\ items_of s2 = []
    /\ trace s2 = [EvActuatorStatusProvider "SW"; EvPublish status false;
                   EvPublish Demo.m1 true; EvPublish status true].
Proof.
  intros w s status.
  apply (@refused_status_goes_out_with_next_drain
           Demo.App Demo.net_first_publish_fails "SW" s
           Demo.actuator_status ACTUATOR_STATE_READY (VBool false) (VBool false)
           3%nat).
  - reflexivity.
  - reflexivity.
  - reflexivity.
  - apply Z.ltb_lt. reflexivity.
  - intros h m. reflexivity.
  - apply Nat.ltb_lt. reflexivity.
Defined.
